(** * Genesis bootstrap and snail-block body validation

    A shallow embedding of the genesis coordinator (package [core]) and
    of the snail-chain block validator (package [snailchain]), together
    with the properties of the dual-ledger consistency protocol that
    they implement.  Line numbers refer to the source file of the
    package at hand.

    Go values are rendered as follows.
    - [uint64] and [int] are integers in [Z]; where the source relies on
      64-bit wrap-around (subtraction of block numbers) the reduction
      modulo [2^64] is written out.
    - A [big.Int] pointer that the source tests against [nil], or leaves unset
      in a header it builds, is an [option Z]; the others are [Z].
    - [common.Hash] and [common.Address] are numbers in [N]; the zero
      value [common.Hash{}] is [0].
    - A Go [error] result is [Err e], a [nil] error is [Ok], and a
      run-time panic (nil dereference, index out of range, division by
      zero) is [Panic]. *)

From Stdlib Require Import ZArith Lia.
From Stdlib.Strings Require Import Byte Ascii String.
From stdpp Require Import gmap list strings.

Local Open Scope Z_scope.

Abbreviation Hash := N (only parsing).
Abbreviation Address := N (only parsing).

(** [common.Hash{}] *)
Definition zeroHash : Hash := 0%N.

(** [Uint64] of a [big.Int]: the low 64 bits of the magnitude. *)
Definition Uint64 (x : Z) : Z := Z.abs x mod 2 ^ 64.

(** Subtraction of two [uint64] values, wrapping around. *)
Definition sub64 (a b : Z) : Z := (a - b) mod 2 ^ 64.

(** ** Package [types] *)

Record PbftSign := {
  ps_FastHeight : Z;
  ps_FastHash : Hash;
  ps_Result : Z;
  ps_Sign : list byte
}.

Record CommitteeMember := {
  Coinbase : Address;
  CommitteeBase : Address;
  Publickey : list byte;
  Flag : Z;
  MType : Z
}.

(** Header of the fast (transaction-carrying) ledger. *)
Record Header := {
  fh_ParentHash : Hash;
  fh_Root : Hash;
  fh_Number : Z;
  fh_GasLimit : Z;
  fh_GasUsed : Z;
  fh_Time : option Z;
  fh_Extra : list byte
}.

(** A fast block: its header and the committee members it announces. *)
Record Block := {
  b_header : Header;
  b_infos : list CommitteeMember
}.

(** Header of the snail (anchor) ledger; fruits use the same header. *)
Record SnailHeader := {
  sh_ParentHash : Hash;
  sh_Coinbase : Address;
  sh_FruitsHash : Hash;
  sh_SignHash : Hash;
  sh_FastHash : Hash;
  sh_FastNumber : option Z;
  sh_Difficulty : option Z;
  sh_FruitDifficulty : option Z;
  sh_Number : Z;
  sh_Time : option Z;
  sh_Extra : list byte;
  sh_MixDigest : Hash;
  sh_Nonce : Z
}.

(** A snail block carries fruits, which are snail blocks themselves. *)
#[local] Unset Elimination Schemes.
Inductive SnailBlock := mkSnailBlock {
  sb_header : SnailHeader;
  sb_fruits : list SnailBlock;
  sb_signs : list PbftSign
}.
#[local] Set Elimination Schemes.

Definition Fruits (b : SnailBlock) : list SnailBlock := sb_fruits b.
Definition Signs (b : SnailBlock) : list PbftSign := sb_signs b.
Definition FastNumber (b : SnailBlock) : option Z := sh_FastNumber (sb_header b).
Definition FastHash (b : SnailBlock) : Hash := sh_FastHash (sb_header b).
Definition Time (b : SnailBlock) : option Z := sh_Time (sb_header b).
Definition Number (b : SnailBlock) : Z := sh_Number (sb_header b).
Definition NumberU64 (b : SnailBlock) : Z := Uint64 (sh_Number (sb_header b)).
Definition ParentHash (b : SnailBlock) : Hash := sh_ParentHash (sb_header b).

(** What the sources use of package [types] without defining it: the
    hashing functions, which are deterministic functions of their
    argument, and the two tags [StateUsedFlag] and [TypeFixed] of an
    active, fixed committee member. *)
Class TypesPkg := {
  BlockHash : Block -> Hash;
  SnailBlockHash : SnailBlock -> Hash;
  DeriveSha : list SnailBlock -> Hash;
  CalcSignHash : list PbftSign -> Hash;
  StateUsedFlag : Z;
  TypeFixed : Z
}.

(** ** Package [snailchain]: the block validator *)

Module snailchain.

Inductive error :=
  | ErrKnownBlock
  | ErrUnknownAncestor
  | ErrPrunedAncestor
  | ErrFutureBlock
  | ErrInvalidSignHash
  | ErrInvalidFast
  | ErrNoFruits
  | ErrInvalidFruits
  | ErrGapFruits
  | ErrFruitTime
  | ErrBlockTime
  | ErrFruitsHash (have want : Hash)
  | ErrEngine (code : N).

Inductive res (A : Type) :=
  | Ok (a : A)
  | Err (e : error)
  | Panic.
Arguments Ok {A} a.
Arguments Err {A} e.
Arguments Panic {A}.

#[export] Instance res_ret : MRet res := fun A a => Ok a.
#[export] Instance res_bind : MBind res := fun A B f m =>
  match m with
  | Ok a => f a
  | Err e => Err e
  | Panic => Panic
  end.

(** A Go [error] value returned by a collaborator. *)
Definition lift (r : option error) : res unit :=
  match r with
  | Some e => Err e
  | None => Ok tt
  end.

(** The canonical snail chain, as far as the validator reads it. *)
Record SnailBlockChain := {
  IsCanonicalBlock : Hash -> Z -> bool;
  HasBlock : Hash -> Z -> bool;
  GetBlock : Hash -> Z -> option SnailBlock
}.

(** The fast chain, as far as the validator reads it. *)
Record FastBlockChain := {
  GetHeader : Hash -> Z -> option Header;
  CurrentHeader : Header
}.

(** [consensus.Engine] *)
Record Engine := {
  VerifyFreshness :
    SnailBlockChain -> SnailHeader -> option SnailHeader -> bool -> option error;
  VerifySnailHeader :
    SnailBlockChain -> FastBlockChain -> SnailHeader -> bool -> bool -> option error;
  VerifySigns : Z -> Hash -> list PbftSign -> option error;
  VerifySnailSeal : SnailBlockChain -> SnailHeader -> bool -> option error
}.

Record BlockValidator := {
  bc : SnailBlockChain;
  engine : Engine;
  fastchain : FastBlockChain
}.

(** The constants of package [params] that the validator reads; their
    declarations are not among the sources. *)
Class FruitParams := {
  MaximumFruits : Z;
  MinimumFruits : Z;
  MinTimeGap : Z
}.

Section Validator.

Context `{TypesPkg} `{FruitParams}.

(** [fruit.FastNumber().Uint64()]; a header without fast number makes the
    call dereference a nil pointer. *)
Definition fastNumberU64 (fruit : SnailBlock) : res Z :=
  match FastNumber fruit with
  | Some n => Ok (Uint64 n)
  | None => Panic
  end.

(** [new(big.Int).Sub(x, y)] on two possibly nil pointers. *)
Definition bigSub (x y : option Z) : res Z :=
  match x, y with
  | Some a, Some b => Ok (a - b)
  | _, _ => Panic
  end.

(** [t1 == nil || t2 == nil || t1.Cmp(t2) < 0] *)
Definition nilOrBefore (t1 t2 : option Z) : bool :=
  match t1, t2 with
  | Some a, Some b => a <? b
  | _, _ => true
  end.

(** [VerifySnailSeal] of the validator, lines 167-169: the engine is
    asked about a fruit, whatever [isFruit] says. *)
Definition VerifySnailSealOf (v : BlockValidator) (chain : SnailBlockChain)
    (header : SnailHeader) (isFruit : bool) : option error :=
  VerifySnailSeal (engine v) chain header true.

(** [ValidateFruit], lines 172-225. *)
Definition ValidateFruit (v : BlockValidator) (fruit : SnailBlock)
    (block : option SnailBlock) (canonical : bool) : res unit :=
  let currentNumber := fh_Number (CurrentHeader (fastchain v)) in
  match FastNumber fruit with
  | None => Panic
  | Some fastNumber =>
    if fastNumber >? currentNumber then Err ErrFutureBlock else
    match GetHeader (fastchain v) (FastHash fruit) (Uint64 fastNumber) with
    | None => Err ErrInvalidFast
    | Some fb =>
      if nilOrBefore (Time fruit) (fh_Time fb) then Err ErrFruitTime else
      let getSignHash := CalcSignHash (Signs fruit) in
      if negb (sh_SignHash (sb_header fruit) =? getSignHash)%N
      then Err ErrInvalidSignHash else
      let blockHeader := sb_header <$> block in
      lift (VerifyFreshness (engine v) (bc v) (sb_header fruit) blockHeader canonical);;
      lift (VerifySnailHeader (engine v) (bc v) (fastchain v) (sb_header fruit) true true);;
      lift (VerifySigns (engine v) fastNumber (FastHash fruit) (Signs fruit))
    end
  end.

(** Lines 95-97: the block is already part of the canonical chain. *)
Definition checkKnown (v : BlockValidator) (block : SnailBlock) : res unit :=
  if IsCanonicalBlock (bc v) (SnailBlockHash block) (NumberU64 block)
  then Err ErrKnownBlock else Ok tt.

(** Lines 99-104: the parent must be canonical.  [NumberU64()-1] is a
    [uint64] subtraction. *)
Definition checkAncestor (v : BlockValidator) (block : SnailBlock) : res unit :=
  let parent := sub64 (NumberU64 block) 1 in
  if negb (IsCanonicalBlock (bc v) (ParentHash block) parent) then
    if negb (HasBlock (bc v) (ParentHash block) parent)
    then Err ErrUnknownAncestor
    else Err ErrPrunedAncestor
  else Ok tt.

(** Lines 108-114: the number of fruits. *)
Definition checkFruitCount (count : Z) : res unit :=
  if count =? 0 then Err ErrNoFruits else
  if (count >? MaximumFruits) || (count <? MinimumFruits) then Err ErrNoFruits
  else Ok tt.

(** Lines 116-125: [temp], the fast number anchored by the last fruit of
    the parent, or zero when the parent is the genesis block. *)
Definition parentAnchor (v : BlockValidator) (block : SnailBlock) : res Z :=
  match GetBlock (bc v) (ParentHash block) (sub64 (NumberU64 block) 1) with
  | None => Err ErrUnknownAncestor
  | Some preBlock =>
    if Number preBlock >? 0 then
      match last (Fruits preBlock) with
      | Some f => fastNumberU64 f
      | None => Panic
      end
    else Ok 0
  end.

(** Lines 126-131: the fast headers anchored by the first and the last
    fruit, as the pair [(minfb, maxfb)]. *)
Definition anchoredRange (v : BlockValidator) (fruits : list SnailBlock)
    : res (Header * Header) :=
  match last fruits, head fruits with
  | Some lastFruit, Some firstFruit =>
    maxn ← fastNumberU64 lastFruit;
    let maxfb := GetHeader (fastchain v) (FastHash lastFruit) maxn in
    minn ← fastNumberU64 firstFruit;
    let minfb := GetHeader (fastchain v) (FastHash firstFruit) minn in
    match minfb, maxfb with
    | Some minfb, Some maxfb => Ok (minfb, maxfb)
    | _, _ => Err ErrFutureBlock
    end
  | _, _ => Panic
  end.

(** Lines 132-135: the block is not older than its last fruit. *)
Definition checkBlockTime (block : SnailBlock) (fruits : list SnailBlock) : res unit :=
  match last fruits with
  | Some lastFruit =>
    match Time lastFruit, Time block with
    | Some ft, Some bt => if bt <? ft then Err ErrBlockTime else Ok tt
    | _, _ => Err ErrBlockTime
    end
  | None => Panic
  end.

(** Lines 136-140: the time between the first and last anchored block. *)
Definition checkTimeGap (minfb maxfb : Header) : res unit :=
  gap ← bigSub (fh_Time maxfb) (fh_Time minfb);
  if gap <? MinTimeGap then Err ErrGapFruits else Ok tt.

(** Lines 142-155: the loop over the fruits; [temp] is the fast number
    of the fruit handled before. *)
Fixpoint validateFruits (v : BlockValidator) (block : SnailBlock) (temp : Z)
    (fruits : list SnailBlock) : res unit :=
  match fruits with
  | [] => Ok tt
  | fruit :: rest =>
    n ← fastNumberU64 fruit;
    if negb (sub64 n temp =? 1) then Err ErrInvalidFruits else
    ValidateFruit v fruit (Some block) false;;
    validateFruits v block n rest
  end.

(** Lines 157-159: the fruits root declared by the header. *)
Definition checkFruitsHash (block : SnailBlock) : res unit :=
  let hash := DeriveSha (Fruits block) in
  if negb (hash =? sh_FruitsHash (sb_header block))%N
  then Err (ErrFruitsHash hash (sh_FruitsHash (sb_header block)))
  else Ok tt.

(** Lines 141-162: the fruits one after the other, then their root. *)
Definition validateSequence (v : BlockValidator) (block : SnailBlock) (temp : Z)
    : res unit :=
  validateFruits v block temp (Fruits block);;
  checkFruitsHash block.

(** Lines 116-162: what is checked once the block is known to link to
    the canonical chain and to carry an admissible number of fruits. *)
Definition validateLinked (v : BlockValidator) (block : SnailBlock) : res unit :=
  temp ← parentAnchor v block;
  let fruits := Fruits block in
  '(minfb, maxfb) ← anchoredRange v fruits;
  checkBlockTime block fruits;;
  checkTimeGap minfb maxfb;;
  validateSequence v block temp.

(** [ValidateBody], lines 93-163. *)
Definition ValidateBody (v : BlockValidator) (block : SnailBlock) : res unit :=
  checkKnown v block;;
  checkAncestor v block;;
  checkFruitCount (Z.of_nat (length (Fruits block)));;
  validateLinked v block.

(** *** The order of the checks

    The checks of [ValidateBody], named one by one, so that the order in
    which the function applies them can be stated and compared with the
    order of the specification. *)

Inductive stage :=
  | SKnown
  | SAncestor
  | SCount
  | SParent
  | SRange
  | SBlockTime
  | SGap
  | SSequence (i : nat)
  | SFruit (i : nat)
  | SHash.

(** The fast number that the fruit at index [i] must follow: the anchor
    of the parent for the first fruit, the fast number of the fruit
    before for the others. *)
Definition anchorBefore (v : BlockValidator) (block : SnailBlock) (i : nat) : res Z :=
  match i with
  | O => parentAnchor v block
  | S j =>
    match Fruits block !! j with
    | Some f => fastNumberU64 f
    | None => Panic
    end
  end.

(** The sequence check of the fruit at index [i], on its own. *)
Definition checkSequence (v : BlockValidator) (block : SnailBlock) (i : nat) : res unit :=
  temp ← anchorBefore v block i;
  match Fruits block !! i with
  | Some fruit =>
    n ← fastNumberU64 fruit;
    if negb (sub64 n temp =? 1) then Err ErrInvalidFruits else Ok tt
  | None => Panic
  end.

(** The outcome of one check, taken on its own. *)
Definition stageResult (v : BlockValidator) (block : SnailBlock) (s : stage) : res unit :=
  match s with
  | SKnown => checkKnown v block
  | SAncestor => checkAncestor v block
  | SCount => checkFruitCount (Z.of_nat (length (Fruits block)))
  | SParent => parentAnchor v block;; Ok tt
  | SRange => anchoredRange v (Fruits block);; Ok tt
  | SBlockTime => checkBlockTime block (Fruits block)
  | SGap => '(minfb, maxfb) ← anchoredRange v (Fruits block); checkTimeGap minfb maxfb
  | SSequence i => checkSequence v block i
  | SFruit i =>
    match Fruits block !! i with
    | Some fruit => ValidateFruit v fruit (Some block) false
    | None => Panic
    end
  | SHash => checkFruitsHash block
  end.

(** Checks applied one after the other, stopping at the first failure. *)
Fixpoint runStages (v : BlockValidator) (block : SnailBlock) (l : list stage) : res unit :=
  match l with
  | [] => Ok tt
  | s :: rest => stageResult v block s;; runStages v block rest
  end.

(** The order of the source: the sequence check of a fruit is followed
    by the validation of that fruit, after the block-level checks. *)
Definition codeOrder (n : nat) : list stage :=
  [SKnown; SAncestor; SCount; SParent; SRange; SBlockTime; SGap]
  ++ flat_map (fun i => [SSequence i; SFruit i]) (seq 0 n)
  ++ [SHash].

(** The order listed by the specification: contiguity over all fruits
    (step 4) before anchored-range resolution (step 5), block time
    (step 6), time gap (step 7) and the validation of the fruits
    (step 8). *)
Definition specOrder (n : nat) : list stage :=
  [SKnown; SAncestor; SCount; SParent]
  ++ map SSequence (seq 0 n)
  ++ [SRange; SBlockTime; SGap]
  ++ map SFruit (seq 0 n)
  ++ [SHash].

(** Contiguity as the specification words it: each fruit, in order,
    anchors the fast number following [temp], and [temp] advances. *)
Fixpoint contiguous (temp : Z) (fruits : list SnailBlock) : bool :=
  match fruits with
  | [] => true
  | fruit :: rest =>
    match FastNumber fruit with
    | Some n => (Uint64 n =? (temp + 1) mod 2 ^ 64) && contiguous (Uint64 n) rest
    | None => false
    end
  end.

(** The value of [temp] once the loop has handled the fruits [pre]. *)
Fixpoint anchorAfter (temp : Z) (pre : list SnailBlock) : Z :=
  match pre with
  | [] => temp
  | fruit :: rest =>
    anchorAfter (match FastNumber fruit with Some n => Uint64 n | None => temp end) rest
  end.

(** *** What acceptance means

    The conditions under which a fruit, and a block, are accepted,
    stated on the data rather than by the order of the checks. *)

(** The fruit anchors a fast block that is not beyond the current fast
    header and that the fast chain holds; it is not older than this
    block; its signature digest is that of its signatures; and the
    engine accepts its freshness, its header and its signatures. *)
Definition fruitAccepted (v : BlockValidator) (block : option SnailBlock)
    (canonical : bool) (fruit : SnailBlock) : Prop :=
  exists n fb ft bt,
    FastNumber fruit = Some n /\
    n <= fh_Number (CurrentHeader (fastchain v)) /\
    GetHeader (fastchain v) (FastHash fruit) (Uint64 n) = Some fb /\
    Time fruit = Some ft /\ fh_Time fb = Some bt /\ bt <= ft /\
    sh_SignHash (sb_header fruit) = CalcSignHash (Signs fruit) /\
    VerifyFreshness (engine v) (bc v) (sb_header fruit) (sb_header <$> block) canonical
    = None /\
    VerifySnailHeader (engine v) (bc v) (fastchain v) (sb_header fruit) true true = None /\
    VerifySigns (engine v) n (FastHash fruit) (Signs fruit) = None.

(** The anchor that the parent block hands on: zero for the genesis
    block, else the fast number of its last fruit. *)
Definition anchorOf (preBlock : SnailBlock) : option Z :=
  if Number preBlock >? 0 then
    f ← last (Fruits preBlock); Uint64 <$> FastNumber f
  else Some 0.

(** The block is new, its parent is the canonical block [preBlock], the
    number of its fruits is within the limits, its fruits anchor the
    fast numbers that follow the anchor of the parent and are accepted
    one by one, the block is not older than its last fruit, the first
    and last anchored fast blocks are far enough apart in time, and the
    header declares the root of the fruits. *)
Definition bodyAccepted (v : BlockValidator) (block : SnailBlock) : Prop :=
  let parent := sub64 (NumberU64 block) 1 in
  let fruits := Fruits block in
  let count := Z.of_nat (length fruits) in
  IsCanonicalBlock (bc v) (SnailBlockHash block) (NumberU64 block) = false /\
  IsCanonicalBlock (bc v) (ParentHash block) parent = true /\
  count <> 0 /\ MinimumFruits <= count <= MaximumFruits /\
  exists preBlock temp firstFruit lastFruit nmin nmax minfb maxfb ft bt tmin tmax,
    GetBlock (bc v) (ParentHash block) parent = Some preBlock /\
    anchorOf preBlock = Some temp /\
    head fruits = Some firstFruit /\ last fruits = Some lastFruit /\
    FastNumber firstFruit = Some nmin /\ FastNumber lastFruit = Some nmax /\
    GetHeader (fastchain v) (FastHash firstFruit) (Uint64 nmin) = Some minfb /\
    GetHeader (fastchain v) (FastHash lastFruit) (Uint64 nmax) = Some maxfb /\
    Time lastFruit = Some ft /\ Time block = Some bt /\ ft <= bt /\
    fh_Time minfb = Some tmin /\ fh_Time maxfb = Some tmax /\
    MinTimeGap <= tmax - tmin /\
    (forall (i : nat) fruit,
       fruits !! i = Some fruit ->
       (exists n, FastNumber fruit = Some n /\
                  Uint64 n = (temp + Z.of_nat i + 1) mod 2 ^ 64) /\
       fruitAccepted v (Some block) false fruit) /\
    DeriveSha fruits = sh_FruitsHash (sb_header block).

(** Nothing that the validator dereferences is nil or missing: the
    fruits carry a fast number, a parent above the genesis block has a
    last fruit with a fast number, and the fast headers carry a time. *)
Definition wellFormed (v : BlockValidator) (block : SnailBlock) : Prop :=
  Forall (fun fruit => is_Some (FastNumber fruit)) (Fruits block) /\
  (forall preBlock,
     GetBlock (bc v) (ParentHash block) (sub64 (NumberU64 block) 1) = Some preBlock ->
     Number preBlock > 0 ->
     exists f, last (Fruits preBlock) = Some f /\ is_Some (FastNumber f)) /\
  (forall h n fb, GetHeader (fastchain v) h n = Some fb -> is_Some (fh_Time fb)).

End Validator.

End snailchain.

(** ** Package [core]: the genesis coordinator *)

Module core.

(** Modelled from the spec: [params.ChainConfig], whose declaration is
    not among the sources; the protocol parameters are a network
    identifier and fork-activation heights (section 3). *)
Record ChainConfig := {
  ChainID : Z;
  ForkHeights : list Z
}.

(** [params.ConfigCompatError] *)
Record ConfigCompatError := {
  RewindTo : Z
}.

(** What the sources use of package [params] without defining it. *)
Class ParamsPkg := {
  CheckCompatible : ChainConfig -> ChainConfig -> Z -> option ConfigCompatError;
  AllMinervaProtocolChanges : ChainConfig;
  MainnetChainConfig : ChainConfig;
  TestnetChainConfig : ChainConfig;
  MainnetGenesisHash : Hash;
  MainnetSnailGenesisHash : Hash;
  TestnetGenesisHash : Hash;
  TestnetSnailGenesisHash : Hash;
  GenesisGasLimit : Z;
  GenesisDifficulty : Z;
  FruitBlockRatio : Z
}.

(** What the sources use of package [crypto]: [UnmarshalPubkey] fails on
    bytes that do not encode a public key, and returns a nil key then. *)
Class CryptoPkg := {
  PublicKey : Type;
  UnmarshalPubkey : list byte -> option PublicKey;
  PubkeyToAddress : PublicKey -> Address
}.

Record GenesisAccount := {
  Code : list byte;
  Storage : gmap N N;
  Balance : Z;
  AccountNonce : Z;
  PrivateKey : list byte
}.

(** What the sources use of package [state]: the root of the state
    obtained by replaying an allocation into the empty state. *)
Class StatePkg := {
  IntermediateRoot : gmap Address GenesisAccount -> Hash
}.

Record Genesis := {
  Config : option ChainConfig;
  Nonce : Z;
  Timestamp : Z;
  ExtraData : list byte;
  GasLimit : Z;
  Difficulty : option Z;
  Mixhash : Hash;
  GenesisCoinbase : Address;
  Alloc : gmap Address GenesisAccount;
  Committee : list CommitteeMember;
  GenesisNumber : Z;
  GasUsed : Z;
  GenesisParentHash : Hash
}.

Inductive error :=
  | errGenesisNoConfig
  | GenesisMismatchError (Stored New : Hash)
  | errGenesisNumber
  | errMissingBlockNumber
  | errConfigCompat (e : ConfigCompatError).

(** The outcome of a call: it returns, or it panics. *)
Inductive exec (A : Type) :=
  | Done (a : A)
  | Panicked.
Arguments Done {A} a.
Arguments Panicked {A}.

#[export] Instance exec_ret : MRet exec := fun A a => Done a.
#[export] Instance exec_bind : MBind exec := fun A B f m =>
  match m with
  | Done a => f a
  | Panicked => Panicked
  end.

(** *** The database

    The key-value store is the sequence of the writes made to it, the
    latest first; a read returns the latest value written under the
    key.  A call has written nothing exactly when it returns the store
    it was given. *)

Inductive Key :=
  | KCanonicalHash (number : Z)
  | KHeaderNumber (hash : Hash)
  | KBlock (hash : Hash)
  | KReceipts (hash : Hash) (number : Z)
  | KHeadBlockHash
  | KHeadHeaderHash
  | KStateGcBR
  | KChainConfig (hash : Hash)
  | KState (root : Hash)
  | KSnailCanonicalHash (number : Z)
  | KSnailTd (hash : Hash) (number : Z)
  | KSnailBlock (hash : Hash)
  | KFtLookup (fastHash : Hash)
  | KSnailHeadBlockHash
  | KSnailHeadHeaderHash.

Inductive Value :=
  | VHash (h : Hash)
  | VNumber (n : Z)
  | VBlock (b : Block)
  | VSnailBlock (b : SnailBlock)
  | VReceipts
  | VChainConfig (c : ChainConfig)
  | VState (alloc : gmap Address GenesisAccount).

#[export] Instance Key_eq_dec : EqDecision Key.
Proof. solve_decision. Defined.

Definition DB := list (Key * Value).

(** [etruedb.NewMemDatabase()] *)
Definition NewMemDatabase : DB := [].

Definition put (k : Key) (x : Value) (db : DB) : DB := (k, x) :: db.

Fixpoint get (k : Key) (db : DB) : option Value :=
  match db with
  | [] => None
  | (k', x) :: rest => if decide (k' = k) then Some x else get k rest
  end.

(** Modelled from the spec: the accessors of packages [rawdb] and
    [snaildb], which are not among the sources, after the store
    capabilities of section 6: a read of an absent canonical or head hash
    gives the zero hash, a read of an absent number or configuration
    gives nil, and a write stores its argument under its key. *)
Definition ReadCanonicalHash (db : DB) (number : Z) : Hash :=
  match get (KCanonicalHash number) db with
  | Some (VHash h) => h
  | _ => zeroHash
  end.

Definition ReadHeadHeaderHash (db : DB) : Hash :=
  match get KHeadHeaderHash db with
  | Some (VHash h) => h
  | _ => zeroHash
  end.

Definition ReadHeaderNumber (db : DB) (hash : Hash) : option Z :=
  match get (KHeaderNumber hash) db with
  | Some (VNumber n) => Some n
  | _ => None
  end.

Definition ReadChainConfig (db : DB) (hash : Hash) : option ChainConfig :=
  match get (KChainConfig hash) db with
  | Some (VChainConfig c) => Some c
  | _ => None
  end.

Definition SnailReadCanonicalHash (db : DB) (number : Z) : Hash :=
  match get (KSnailCanonicalHash number) db with
  | Some (VHash h) => h
  | _ => zeroHash
  end.

Definition WriteChainConfig (db : DB) (hash : Hash) (cfg : option ChainConfig) : DB :=
  match cfg with
  | Some c => put (KChainConfig hash) (VChainConfig c) db
  | None => db
  end.

Definition WriteCanonicalHash (db : DB) (hash : Hash) (number : Z) : DB :=
  put (KCanonicalHash number) (VHash hash) db.

Definition WriteHeadBlockHash (db : DB) (hash : Hash) : DB :=
  put KHeadBlockHash (VHash hash) db.

Definition WriteHeadHeaderHash (db : DB) (hash : Hash) : DB :=
  put KHeadHeaderHash (VHash hash) db.

Definition WriteReceipts (db : DB) (hash : Hash) (number : Z) : DB :=
  put (KReceipts hash number) VReceipts db.

Definition WriteStateGcBR (db : DB) (number : Z) : DB :=
  put KStateGcBR (VNumber number) db.

Definition SnailWriteCanonicalHash (db : DB) (hash : Hash) (number : Z) : DB :=
  put (KSnailCanonicalHash number) (VHash hash) db.

Definition SnailWriteHeadBlockHash (db : DB) (hash : Hash) : DB :=
  put KSnailHeadBlockHash (VHash hash) db.

Definition SnailWriteHeadHeaderHash (db : DB) (hash : Hash) : DB :=
  put KSnailHeadHeaderHash (VHash hash) db.

Definition WriteTd (db : DB) (hash : Hash) (number : Z) (td : Z) : DB :=
  put (KSnailTd hash number) (VNumber td) db.

(** Modelled from the spec: [types.NewBlock] and [types.NewSnailBlock],
    which are not among the sources.  The block keeps the header and the
    members, fruits and signatures it is made of; what the constructors
    derive from them enters the block hash, a function of the block. *)
Definition NewBlock (header : Header) (infos : list CommitteeMember) : Block :=
  {| b_header := header; b_infos := infos |}.

Definition NewSnailBlock (header : SnailHeader) (fruits : list SnailBlock)
    (signs : list PbftSign) : SnailBlock :=
  {| sb_header := header; sb_fruits := fruits; sb_signs := signs |}.

(** [hexutil.MustDecode] on the literals of the sources, which are
    well-formed: a [0x] prefix followed by pairs of hexadecimal digits. *)
Definition hexDigit (c : ascii) : option N :=
  let n := N_of_ascii c in
  (if (48 <=? n) && (n <=? 57) then Some (n - 48)
   else if (97 <=? n) && (n <=? 102) then Some (n - 87)
   else if (65 <=? n) && (n <=? 70) then Some (n - 55)
   else None)%N.

Fixpoint hexBytes (s : string) : option (list byte) :=
  match s with
  | EmptyString => Some []
  | String a (String b rest) =>
    hi ← hexDigit a;
    lo ← hexDigit b;
    x ← Byte.of_N (hi * 16 + lo);
    (x ::.) <$> hexBytes rest
  | String _ EmptyString => None
  end%N.

Definition MustDecode (s : string) : list byte :=
  match s with
  | String "0" (String "x" rest) => default [] (hexBytes rest)
  | _ => []
  end.

(** *** [storageJSON], lines 96-115

    A 256-bit value that may be given by fewer than 64 hexadecimal
    digits.  The functions of the Go standard library that the two
    methods call are written out: [bytes.TrimPrefix], [hex.Decode] and
    [hex.Encode]; [hexutil.Bytes.MarshalText] prefixes the encoding with
    [0x]. *)

Fixpoint stripPrefix (prefix s : list byte) : option (list byte) :=
  match prefix, s with
  | [], _ => Some s
  | p :: prefix', c :: s' => if Byte.eqb p c then stripPrefix prefix' s' else None
  | _ :: _, [] => None
  end.

(** [bytes.TrimPrefix] *)
Definition TrimPrefix (s prefix : list byte) : list byte :=
  default s (stripPrefix prefix s).

(** The value of a hexadecimal digit, in either case. *)
Definition fromHexChar (c : byte) : option N := hexDigit (ascii_of_byte c).

(** [(a << 4) | b] for two values below sixteen. *)
Definition joinNibbles (a b : N) : byte :=
  match Byte.of_N (a * 16 + b) with
  | Some x => x
  | None => x00
  end.

Inductive hexError :=
  | ErrLength
  | InvalidByteError (c : byte).

(** [hex.Decode dst src]: the pairs of digits are written to [dst] one
    after the other; the first invalid digit, or else an odd length,
    ends the decoding with an error.  The result is [dst] as the call
    leaves it, and the error.  Writing past the end of [dst] panics. *)
Fixpoint hexDecode (dst src : list byte) {struct src}
    : exec (list byte * option hexError) :=
  match src with
  | [] => Done (dst, None)
  | [p] =>
    match fromHexChar p with
    | None => Done (dst, Some (InvalidByteError p))
    | Some _ => Done (dst, Some ErrLength)
    end
  | p :: q :: rest =>
    match fromHexChar p, fromHexChar q with
    | None, _ => Done (dst, Some (InvalidByteError p))
    | Some _, None => Done (dst, Some (InvalidByteError q))
    | Some a, Some b =>
      match dst with
      | [] => Panicked
      | _ :: dst' =>
        '(written, err) ← hexDecode dst' rest;
        Done (joinNibbles a b :: written, err)
      end
    end
  end.

(** The digit of a value below sixteen, from [0123456789abcdef]. *)
Definition hexChar (n : N) : byte :=
  nth (N.to_nat n)
    [x30; x31; x32; x33; x34; x35; x36; x37; x38; x39; x61; x62; x63; x64; x65; x66] x30.

(** [hex.Encode] *)
Definition hexEncode (src : list byte) : list byte :=
  flat_map (fun v => [hexChar (Byte.to_N v / 16); hexChar (Byte.to_N v mod 16)]%N) src.

Inductive jsonError :=
  | errTooManyHex (text : list byte)
  | errInvalidHex (text : list byte).

(** What [UnmarshalText] leaves: the receiver, the lines printed on the
    console, and the error returned. *)
Record unmarshalled := {
  um_value : list byte;
  um_console : list hexError;
  um_err : option jsonError
}.

(** [storageJSON.UnmarshalText], lines 100-111.  The receiver [h] is an
    array of 32 bytes; a slice that starts past its end panics. *)
Definition UnmarshalText (h text : list byte) : exec unmarshalled :=
  let text := TrimPrefix text [x30; x78] in
  if (64 <? length text)%nat then
    Done {| um_value := h; um_console := []; um_err := Some (errTooManyHex text) |}
  else if (length h <? length text / 2)%nat then Panicked
  else
    let offset := (length h - length text / 2)%nat in
    '(written, err) ← hexDecode (drop offset h) text;
    let h := take offset h ++ written in
    match err with
    | Some e =>
      Done {| um_value := h; um_console := [e]; um_err := Some (errInvalidHex text) |}
    | None => Done {| um_value := h; um_console := []; um_err := None |}
    end.

(** [storageJSON.MarshalText], lines 113-115. *)
Definition MarshalText (h : list byte) : list byte :=
  [x30; x78] ++ hexEncode h.

(** The number that the bytes denote, the first byte the most
    significant. *)
Definition bigEndian (bs : list byte) : N :=
  foldl (fun acc b => acc * 256 + Byte.to_N b)%N 0%N bs.

(** The number that a sequence of hexadecimal digits denotes. *)
Definition hexValue (text : list byte) : N :=
  foldl (fun acc c => acc * 16 + default 0 (fromHexChar c))%N 0%N text.

(** The text consists of hexadecimal digits. *)
Definition allHex (text : list byte) : Prop :=
  Forall (fun c => is_Some (fromHexChar c)) text.

(** [new(big.Int).Div(x, y)]: Euclidean division, which panics on a zero
    divisor. *)
Definition bigDiv (x y : Z) : exec Z :=
  if y =? 0 then Panicked
  else if y >? 0 then Done (x / y)
  else Done (- (x / - y)).

Section Genesis.

Context `{TypesPkg} `{ParamsPkg} `{CryptoPkg} `{StatePkg}.

(** Modelled from the spec: [rawdb.WriteBlock] and its snail
    counterparts store the block under its hash, with the number of its
    header; the fruit lookup index is keyed by the anchored fast block. *)
Definition WriteBlock (db : DB) (block : Block) : DB :=
  put (KBlock (BlockHash block)) (VBlock block)
    (put (KHeaderNumber (BlockHash block)) (VNumber (fh_Number (b_header block))) db).

Definition SnailWriteBlock (db : DB) (block : SnailBlock) : DB :=
  put (KSnailBlock (SnailBlockHash block)) (VSnailBlock block) db.

Definition WriteFtLookupEntries (db : DB) (block : SnailBlock) : DB :=
  foldr (fun fruit acc => put (KFtLookup (FastHash fruit)) (VHash (SnailBlockHash block)) acc)
    db (Fruits block).

(** [statedb.Commit] followed by [TrieDB().Commit]: the state of the
    allocation is stored under its root. *)
Definition commitState (db : DB) (alloc : gmap Address GenesisAccount) : DB :=
  put (KState (IntermediateRoot alloc)) (VState alloc) db.

(** The loop of [ToFastBlock], lines 276-281.  It writes
    through the member pointers; the result is the members as the loop
    leaves them.  [*pubkey] dereferences the key that [UnmarshalPubkey]
    returned, whose error is dropped. *)
Fixpoint normalizeCommittee (members : list CommitteeMember) : exec (list CommitteeMember) :=
  match members with
  | [] => Done []
  | member :: rest =>
    match UnmarshalPubkey (Publickey member) with
    | None => Panicked
    | Some pubkey =>
      let member' := {|
        Coinbase := Coinbase member;
        CommitteeBase := PubkeyToAddress pubkey;
        Publickey := Publickey member;
        Flag := StateUsedFlag;
        MType := TypeFixed
      |} in
      rest' ← normalizeCommittee rest;
      Done (member' :: rest')
    end
  end.

Definition withCommittee (g : Genesis) (members : list CommitteeMember) : Genesis :=
  {| Config := Config g; Nonce := Nonce g; Timestamp := Timestamp g;
     ExtraData := ExtraData g; GasLimit := GasLimit g; Difficulty := Difficulty g;
     Mixhash := Mixhash g; GenesisCoinbase := GenesisCoinbase g; Alloc := Alloc g;
     Committee := members; GenesisNumber := GenesisNumber g; GasUsed := GasUsed g;
     GenesisParentHash := GenesisParentHash g |}.

Definition withDifficulty (g : Genesis) (d : Z) : Genesis :=
  {| Config := Config g; Nonce := Nonce g; Timestamp := Timestamp g;
     ExtraData := ExtraData g; GasLimit := GasLimit g; Difficulty := Some d;
     Mixhash := Mixhash g; GenesisCoinbase := GenesisCoinbase g; Alloc := Alloc g;
     Committee := Committee g; GenesisNumber := GenesisNumber g; GasUsed := GasUsed g;
     GenesisParentHash := GenesisParentHash g |}.

(** [ToFastBlock], lines 244-283.  With a nil database the
    state goes to a fresh in-memory database.  The result carries the
    specification as the loop over the committee leaves it, the block,
    and the database that received the state. *)
Definition ToFastBlock (g : Genesis) (db : option DB) : exec (Genesis * Block * DB) :=
  let db := default NewMemDatabase db in
  let root := IntermediateRoot (Alloc g) in
  let head := {|
    fh_ParentHash := GenesisParentHash g;
    fh_Root := root;
    fh_Number := GenesisNumber g;
    fh_GasLimit := if GasLimit g =? 0 then GenesisGasLimit else GasLimit g;
    fh_GasUsed := GasUsed g;
    fh_Time := Some (Timestamp g);
    fh_Extra := ExtraData g
  |} in
  let db := commitState db (Alloc g) in
  members ← normalizeCommittee (Committee g);
  Done (withCommittee g members, NewBlock head members, db).

(** [CommitFast], lines 222-240. *)
Definition CommitFast (g : Genesis) (db : DB)
    : exec ((option Block * option error) * Genesis * DB) :=
  '(g, block, db) ← ToFastBlock g (Some db);
  if negb (fh_Number (b_header block) =? 0) then
    Done ((None, Some errGenesisNumber), g, db)
  else
    let db := WriteBlock db block in
    let db := WriteReceipts db (BlockHash block) (fh_Number (b_header block)) in
    let db := WriteCanonicalHash db (BlockHash block) (fh_Number (b_header block)) in
    let db := WriteHeadBlockHash db (BlockHash block) in
    let db := WriteHeadHeaderHash db (BlockHash block) in
    let db := WriteStateGcBR db (fh_Number (b_header block)) in
    let config := default AllMinervaProtocolChanges (Config g) in
    let db := WriteChainConfig db (BlockHash block) (Some config) in
    Done ((Some block, None), g, db).

(** [ToSnailBlock], lines 340-375.  A nil difficulty is
    replaced by the default one, in the header and in the
    specification. *)
Definition ToSnailBlock (g : Genesis) (db : option DB) : exec (Genesis * SnailBlock * DB) :=
  let db := default NewMemDatabase db in
  let difficulty := default GenesisDifficulty (Difficulty g) in
  let head := {|
    sh_ParentHash := GenesisParentHash g;
    sh_Coinbase := GenesisCoinbase g;
    sh_FruitsHash := zeroHash;
    sh_SignHash := zeroHash;
    sh_FastHash := zeroHash;
    sh_FastNumber := None;
    sh_Difficulty := Some difficulty;
    sh_FruitDifficulty := None;
    sh_Number := GenesisNumber g;
    sh_Time := Some (Timestamp g);
    sh_Extra := ExtraData g;
    sh_MixDigest := Mixhash g;
    sh_Nonce := Nonce g
  |} in
  let g := withDifficulty g difficulty in
  '(g, fastBlock, db) ← ToFastBlock g (Some db);
  fruitDifficulty ← bigDiv difficulty FruitBlockRatio;
  let fruitHead := {|
    sh_ParentHash := GenesisParentHash g;
    sh_Coinbase := GenesisCoinbase g;
    sh_FruitsHash := zeroHash;
    sh_SignHash := zeroHash;
    sh_FastHash := BlockHash fastBlock;
    sh_FastNumber := Some (fh_Number (b_header fastBlock));
    sh_Difficulty := None;
    sh_FruitDifficulty := Some fruitDifficulty;
    sh_Number := GenesisNumber g;
    sh_Time := Some (Timestamp g);
    sh_Extra := [];
    sh_MixDigest := zeroHash;
    sh_Nonce := Nonce g
  |} in
  let fruit := NewSnailBlock fruitHead [] [] in
  Done (g, NewSnailBlock head [fruit] [], db).

(** [CommitSnail], lines 379-397. *)
Definition CommitSnail (g : Genesis) (db : DB)
    : exec ((option SnailBlock * option error) * Genesis * DB) :=
  '(g, block, db) ← ToSnailBlock g (Some db);
  if negb (Number block =? 0) then
    Done ((None, Some errGenesisNumber), g, db)
  else
    match Difficulty g with
    | None => Panicked
    | Some td =>
      let db := WriteTd db (SnailBlockHash block) (NumberU64 block) td in
      let db := SnailWriteBlock db block in
      let db := WriteFtLookupEntries db block in
      let db := SnailWriteCanonicalHash db (SnailBlockHash block) (NumberU64 block) in
      let db := SnailWriteHeadBlockHash db (SnailBlockHash block) in
      let db := SnailWriteHeadHeaderHash db (SnailBlockHash block) in
      Done ((Some block, None), g, db)
    end.

(** [DefaultGenesisBlock], lines 410-460. *)
Definition DefaultGenesisBlock : Genesis :=
  let i := 65750000000000000000000000 in
  let j := 8250000000000000000000000 in
  let key1 := MustDecode
    "0x0406e9c1f797fe21229f8146f5ecf837a545e4d7e96dc88903286ce3036f425f307c88418f902c9b08fd07e0aee0f249994cf19819235fd607acd38ce77f777d1a" in
  let key2 := MustDecode
    "0x04ce1b2f41acdb293408da34a84162bc313be4b8682c183c7bdd4891ac87c514549a14ac564a9de615e7e8eae75441b1332042a2d00160079b2714b4bed1665f29" in
  let key3 := MustDecode
    "0x045e020f6f27adf1bdc8e682c6fb7a7623d8a5899fa88702d436b18e245e35dd4b573c28565b4105abb48a14d5aa442326c56a9eb2fa3f8509aea3f5625cfd621b" in
  let key4 := MustDecode
    "0x04028b42cb580bd78579441c96fb25b54b284c3f3258bb7ec9e37828f716cfe2ca4fb3dabc51b3d4215f14715a0999c86ae9ce4bc4e4bccfbcf7b64b6969746fb8" in
  let key5 := MustDecode
    "0x04a36c5cc785b10b8d5c7f18f6387f511c060ca0760c06b816db5cdb087723d185f034988ce1a117cd81138f7c971d272a6b6e8affa49ccf82df0d0388c644a6c1" in
  let key6 := MustDecode
    "0x049b240252750233ffb2e2fb0872e9dc8029a0af2a0bf8cb494181eae1f2673d662bbbb56215a42cb509ec42e80b089e2d6be581d084f54efe094a3fba3e990717" in
  let key7 := MustDecode
    "0x048a0560f53440a84bad6286eb65a756a1a1880492e19f7500e4f3ef760b939b9fafb9e14660ce5fc7a90d45136117690beac13121d22952d054d4727b39764468" in
  let key8 := MustDecode
    "0x0409e96160f03587376c3dff6a3b2f8d6028afc25668aa653d7f1bfe9eff8fb1165474cb93d8b2f292a6e4364d5447ca28002ae211b1624e33447864511e1d4d5d" in
  let key9 := MustDecode
    "0x040d721ac02c250be372156b4bf2620e6bec1799c70105705fc8aee7f11a11b2a6697086ca2161176b85b663f2d9b98275644fd3971af5d08fd7f6070f45314f55" in
  let key10 := MustDecode
    "0x04487dc07260059573abe6e7bf3209c975985c49400092ec246d28cc4d1eb54a6f7f5eb8375a2f7d398f1e0bb75406e5d38451935cc16376ddbac5d057c66a231c" in
  let key11 := MustDecode
    "0x04f3611f44cd7913fbd2452040716e13c8759743dd44a566e94df1f81078234a45d36259ede0186cbbec3e2e7bd638d7fca1586ddf47d596bb41c668e39021556a" in
  let key12 := MustDecode
    "0x0465c75fa5e80eabd141b08a4345573d43d582b42aed524025e7dcac4919bc16eee14705f49da7f381747a5196de792ba4a11ede9079a9025e11bcb0930760ef2e" in
  let key13 := MustDecode
    "0x049a943801bd862f0287eacb8221f13bff351c63b7ab78c9a1f71472ae8a8c28779f32c4dcfd904f36d9edb54d8a0c57462654026cde4f5022fe2d99b63174b9ae" in
  let key14 := MustDecode
    "0x04c4e01103818ca955c9219000c297c928b02b89d0eb3043886f524d645e20251343bf117d5a1b553708638c7dca8d1a12fb6379ae2d20756b57fdc5052a0dd787" in
  let account (balance : Z) := {|
    Code := []; Storage := ∅; Balance := balance; AccountNonce := 0; PrivateKey := []
  |} in
  let member (key : list byte) := {|
    Coinbase := 0xfC5659050350eB76F9Ebcc6c2b1598C3a2fFc625%N;
    CommitteeBase := 0%N;
    Publickey := key;
    Flag := 0;
    MType := 0
  |} in
  {|
    Config := Some MainnetChainConfig;
    Nonce := 330;
    Timestamp := 0;
    ExtraData := MustDecode "0x54727565436861696E204D61696E4E6574";
    GasLimit := 16777216;
    Difficulty := Some 2147483648;
    Mixhash := 0%N;
    GenesisCoinbase := 0%N;
    Alloc :=
      <[0xa5F41eaf51d24c8eDcDF254F200f8a6D818a6836%N := account i]>
        (<[0xbD1edee3bdD812BB5058Df1F1392dDdd99dE58cc%N := account j]> ∅);
    Committee := member <$> [key1; key2; key3; key4; key5; key6; key7; key8; key9; key10;
                             key11; key12; key13; key14];
    GenesisNumber := 0;
    GasUsed := 0;
    GenesisParentHash := 0%N
  |}.

(** [DefaultTestnetGenesisBlock], lines 540-575. *)
Definition DefaultTestnetGenesisBlock : Genesis :=
  let seedkey1 := MustDecode
    "0x042afba5a6680b5361bb57761ca67a7ea309d2883bda93c5d9521078258bb97b03610002865fb27993fcea4918023144eb516706ea33c7c94fef7b2f330cb9d0a6" in
  let seedkey2 := MustDecode
    "0x04e444bc40b6d1372a955fb9bb9a986ceb1c13a450794151fbf48033189351f6bddddcbebfa5c6d205887551e9527e6deff2cbee9f233ffe14fd15db4beb9c9f34" in
  let seedkey3 := MustDecode
    "0x049620df839696f4451842fd543b38d171f7f215dcd2c7fcd813c0206f097206a67b25ad719fbb62570c4a4ba467ec61aa396788e3ae79c704a62ea759beca3175" in
  let seedkey4 := MustDecode
    "0x04f714bb815a9ecc505eae7e756b63753850df92a0fe4c99dc8b6660ba17bbcbb88000d9efb524eb38746ef4505ad2ab1895efccbcc966d4c685c811bda7c9d8ef" in
  let seedkey5 := MustDecode
    "0x04c0617eef5000dc4a48fb4483735a33c7b2e58e3301fec13b55e9369f8b2bd04c59d899a1fe977b06a3db71fd7c8036b564ffa07171071835a7bb9e24cff22312" in
  let seedkey6 := MustDecode
    "0x0420bf209047d5eace814848692360a83065841ee91445a8b71b6092f681bf7741a5497ae0a28c401cda133ba8d12ca3dbc6ae756d2fc55288abc159c2ddf601fc" in
  let seedkey7 := MustDecode
    "0x043736280e96284f5d9460fd874f2dbe6b82ae29d7f348b931f540cc7612f41f20319c76ac90f3de8c68db2e9c7cf9bdfe0fca62046b0f35d01404d49d1de2a43e" in
  let coinbase := 0x7c357530174275dd30e46319b89f71186256e4f7%N in
  let amount1 := 24000000000000000000000000 in
  let member (key : list byte) := {|
    Coinbase := coinbase;
    CommitteeBase := 0%N;
    Publickey := key;
    Flag := 0;
    MType := 0
  |} in
  {|
    Config := Some TestnetChainConfig;
    Nonce := 928;
    Timestamp := 1537891200;
    ExtraData := MustDecode "0x54727565436861696E20546573744E6574203035";
    GasLimit := 20971520;
    Difficulty := Some 100000;
    Mixhash := 0%N;
    GenesisCoinbase := 0%N;
    Alloc :=
      <[0x7c357530174275dd30e46319b89f71186256e4f7%N :=
          {| Code := []; Storage := ∅; Balance := amount1; AccountNonce := 0;
             PrivateKey := [] |}]> ∅;
    Committee := member <$> [seedkey1; seedkey2; seedkey3; seedkey4; seedkey5; seedkey6;
                             seedkey7];
    GenesisNumber := 0;
    GasUsed := 0;
    GenesisParentHash := 0%N
  |}.

(** [configOrDefault], lines 462-477; the receiver may be
    nil. *)
Definition configOrDefault (g : option Genesis) (ghash : Hash) : option ChainConfig :=
  match g with
  | Some g => Config g
  | None =>
    if (ghash =? MainnetGenesisHash)%N then Some MainnetChainConfig
    else if (ghash =? MainnetSnailGenesisHash)%N then Some MainnetChainConfig
    else if (ghash =? TestnetGenesisHash)%N then Some TestnetChainConfig
    else if (ghash =? TestnetSnailGenesisHash)%N then Some TestnetChainConfig
    else Some AllMinervaProtocolChanges
  end.

(** [genesis != nil && genesis.Config == nil] *)
Definition lacksConfig (genesis : option Genesis) : bool :=
  match genesis with
  | Some g => match Config g with None => true | Some _ => false end
  | None => false
  end.

(** What a setup function returns: the configuration, the genesis hash
    and the error. *)
Definition setupResult : Type := option ChainConfig * Hash * option error.

(** Lines 191-217 of [setupFastGenesisBlock]: the stored configuration
    is reconciled with the new one. *)
Definition reconcileConfig (db : DB) (genesis : option Genesis) (stored : Hash)
    : exec (setupResult * DB) :=
  let newcfg := configOrDefault genesis stored in
  match ReadChainConfig db stored with
  | None => Done ((newcfg, stored, None), WriteChainConfig db stored newcfg)
  | Some storedcfg =>
    if bool_decide (genesis = None) && negb (stored =? MainnetGenesisHash)%N then
      Done ((Some storedcfg, stored, None), db)
    else
      match ReadHeaderNumber db (ReadHeadHeaderHash db) with
      | None => Done ((newcfg, stored, Some errMissingBlockNumber), db)
      | Some height =>
        match newcfg with
        | None => Panicked
        | Some cfg =>
          match CheckCompatible storedcfg cfg height with
          | Some compatErr =>
            if negb (height =? 0) && negb (RewindTo compatErr =? 0) then
              Done ((newcfg, stored, Some (errConfigCompat compatErr)), db)
            else Done ((newcfg, stored, None), WriteChainConfig db stored newcfg)
          | None => Done ((newcfg, stored, None), WriteChainConfig db stored newcfg)
          end
        end
      end
  end.

(** [setupFastGenesisBlock], lines 165-218.  The result
    carries what the call returns, the caller's specification as the
    call leaves it, and the database. *)
Definition setupFastGenesisBlock (db : DB) (genesis : option Genesis)
    : exec (setupResult * option Genesis * DB) :=
  if lacksConfig genesis then
    Done ((Some AllMinervaProtocolChanges, zeroHash, Some errGenesisNoConfig), genesis, db)
  else
    let stored := ReadCanonicalHash db 0 in
    if (stored =? zeroHash)%N then
      let g := default DefaultGenesisBlock genesis in
      '(r, g, db) ← CommitFast g db;
      match r with
      | (Some block, err) => Done ((Config g, BlockHash block, err), (fun _ => g) <$> genesis, db)
      | (None, _) => Panicked
      end
    else
      match genesis with
      | Some g =>
        '(g, block, _) ← ToFastBlock g None;
        let hash := BlockHash block in
        if negb (hash =? stored)%N then
          Done ((Config g, hash, Some (GenesisMismatchError stored hash)), Some g, db)
        else
          '(r, db) ← reconcileConfig db (Some g) stored;
          Done (r, Some g, db)
      | None =>
        '(r, db) ← reconcileConfig db None stored;
        Done (r, None, db)
      end.

(** [setupSnailGenesisBlock], lines 308-336. *)
Definition setupSnailGenesisBlock (db : DB) (genesis : option Genesis)
    : exec (setupResult * option Genesis * DB) :=
  if lacksConfig genesis then
    Done ((Some AllMinervaProtocolChanges, zeroHash, Some errGenesisNoConfig), genesis, db)
  else
    let stored := SnailReadCanonicalHash db 0 in
    if (stored =? zeroHash)%N then
      let g := default DefaultGenesisBlock genesis in
      '(r, g, db) ← CommitSnail g db;
      match r with
      | (Some block, err) =>
        Done ((Config g, SnailBlockHash block, err), (fun _ => g) <$> genesis, db)
      | (None, _) => Panicked
      end
    else
      match genesis with
      | Some g =>
        '(g, block, _) ← ToSnailBlock g None;
        let hash := SnailBlockHash block in
        if negb (hash =? stored)%N then
          Done ((Config g, hash, Some (GenesisMismatchError stored hash)), Some g, db)
        else
          Done ((configOrDefault (Some g) stored, stored, None), Some g, db)
      | None =>
        Done ((configOrDefault None stored, stored, None), None, db)
      end.

(** [SetupGenesisBlock], lines 140-150: it returns the
    configuration, the fast and the snail genesis hash, and an error. *)
Definition SetupGenesisBlock (db : DB) (genesis : option Genesis)
    : exec ((option ChainConfig * Hash * Hash * option error) * option Genesis * DB) :=
  if lacksConfig genesis then
    Done ((Some AllMinervaProtocolChanges, zeroHash, zeroHash, Some errGenesisNoConfig),
          genesis, db)
  else
    '((fastConfig, fastHash, fastErr), genesis, db) ← setupFastGenesisBlock db genesis;
    '((_, snailHash, _), genesis, db) ← setupSnailGenesisBlock db genesis;
    Done ((fastConfig, fastHash, snailHash, fastErr), genesis, db).

(** [MustFastCommit], lines 287-293, and [MustSnailCommit], lines
    401-407: the error of the commit becomes a panic. *)
Definition MustFastCommit (g : Genesis) (db : DB) : exec (option Block * Genesis * DB) :=
  '(r, g, db) ← CommitFast g db;
  match r with
  | (_, Some err) => Panicked
  | (block, None) => Done (block, g, db)
  end.

Definition MustSnailCommit (g : Genesis) (db : DB)
    : exec (option SnailBlock * Genesis * DB) :=
  '(r, g, db) ← CommitSnail g db;
  match r with
  | (_, Some err) => Panicked
  | (block, None) => Done (block, g, db)
  end.

(** The specification of [GenesisFastBlockForTesting] and of
    [GenesisSnailBlockForTesting], lines 492-501: one account, the
    permissive configuration, and zero values elsewhere. *)
Definition testingGenesis (addr : Address) (balance : Z) : Genesis := {|
  Config := Some AllMinervaProtocolChanges;
  Nonce := 0;
  Timestamp := 0;
  ExtraData := [];
  GasLimit := 0;
  Difficulty := None;
  Mixhash := zeroHash;
  GenesisCoinbase := 0%N;
  Alloc := {[ addr := {| Code := []; Storage := ∅; Balance := balance; AccountNonce := 0;
                         PrivateKey := [] |} ]};
  Committee := [];
  GenesisNumber := 0;
  GasUsed := 0;
  GenesisParentHash := zeroHash
|}.

Definition GenesisFastBlockForTesting (db : DB) (addr : Address) (balance : Z)
    : exec (option Block * Genesis * DB) :=
  MustFastCommit (testingGenesis addr balance) db.

Definition GenesisSnailBlockForTesting (db : DB) (addr : Address) (balance : Z)
    : exec (option SnailBlock * Genesis * DB) :=
  MustSnailCommit (testingGenesis addr balance) db.

(** [snaildb.ReadHeadHeaderHash] and the reads of the total difficulty,
    modelled like the accessors above. *)
Definition SnailReadHeadHeaderHash (db : DB) : Hash :=
  match get KSnailHeadHeaderHash db with
  | Some (VHash h) => h
  | _ => zeroHash
  end.

Definition ReadTd (db : DB) (hash : Hash) (number : Z) : option Z :=
  match get (KSnailTd hash number) db with
  | Some (VNumber td) => Some td
  | _ => None
  end.

(** *** Notions used to state the properties *)

(** The committee member is active and fixed, and its committee-base
    address is the address of the key that its bytes encode. *)
Definition normalized (member : CommitteeMember) : Prop :=
  exists pubkey,
    UnmarshalPubkey (Publickey member) = Some pubkey /\
    CommitteeBase member = PubkeyToAddress pubkey /\
    Flag member = StateUsedFlag /\
    MType member = TypeFixed.

(** Every committee member of the specification carries bytes that
    encode a public key. *)
Definition validKeys (g : Genesis) : Prop :=
  Forall (fun member => is_Some (UnmarshalPubkey (Publickey member))) (Committee g).

(** Some committee member of the specification carries bytes that do not
    encode a public key. *)
Definition invalidKey (g : Genesis) : Prop :=
  Exists (fun member => UnmarshalPubkey (Publickey member) = None) (Committee g).

(** The database that a call leaves, when it returns. *)
Definition storeAfter {A : Type} (r : exec (A * DB)) : DB :=
  match r with
  | Done (_, db) => db
  | Panicked => NewMemDatabase
  end.

End Genesis.

End core.

(** ** A concrete instance

    A small instance of the collaborators, on which the definitions
    above can be evaluated: hashes that can be read off the block, a
    compatibility check that never objects, and public keys that are
    valid when they are 65 bytes long and start with the byte [04]. *)

Module sample.

Import snailchain core.

#[export] Instance types : TypesPkg := {|
  BlockHash b :=
    (1000 + Z.to_N (fh_Number (b_header b)) * 100
     + Z.to_N (default 0%Z (fh_Time (b_header b))) + N.of_nat (length (b_infos b)))%N;
  SnailBlockHash b :=
    (Z.to_N (sh_Number (sb_header b)) * 10 + Z.to_N (sh_Nonce (sb_header b))
     + N.of_nat (length (sb_signs b)))%N;
  DeriveSha fruits := (7000 + N.of_nat (length fruits))%N;
  CalcSignHash signs := (9000 + N.of_nat (length signs))%N;
  StateUsedFlag := 0xa1;
  TypeFixed := 0xa1
|}.

#[export] Instance params : ParamsPkg := {|
  CheckCompatible _ _ _ := None;
  AllMinervaProtocolChanges := {| ChainID := 1337; ForkHeights := [0] |};
  MainnetChainConfig := {| ChainID := 19330; ForkHeights := [0] |};
  TestnetChainConfig := {| ChainID := 18928; ForkHeights := [0] |};
  MainnetGenesisHash := 1014%N;
  MainnetSnailGenesisHash := 330%N;
  TestnetGenesisHash := 1537892207%N;
  TestnetSnailGenesisHash := 928%N;
  GenesisGasLimit := 4712388;
  GenesisDifficulty := 1024;
  FruitBlockRatio := 600
|}.

#[export] Instance crypto : CryptoPkg := {|
  PublicKey := list byte;
  UnmarshalPubkey bs :=
    match bs with
    | x04 :: rest => if (length rest =? 64)%nat then Some bs else None
    | _ => None
    end;
  PubkeyToAddress pk := foldr (fun b acc => (acc * 256 + Byte.to_N b) mod 2 ^ 160)%N 0%N pk
|}.

#[export] Instance state : StatePkg := {|
  IntermediateRoot alloc := (500 + N.of_nat (size alloc))%N
|}.

#[export] Instance fruitParams : FruitParams := {|
  MaximumFruits := 600;
  MinimumFruits := 60;
  MinTimeGap := 360
|}.

(** A fruit anchoring the fast block [n], without signatures. *)
Definition fruit (n : Z) : SnailBlock := {|
  sb_header := {|
    sh_ParentHash := 0%N; sh_Coinbase := 0%N; sh_FruitsHash := 0%N;
    sh_SignHash := 9000%N; sh_FastHash := Z.to_N n; sh_FastNumber := Some n;
    sh_Difficulty := None; sh_FruitDifficulty := Some 10; sh_Number := 6;
    sh_Time := Some 2000; sh_Extra := []; sh_MixDigest := 0%N; sh_Nonce := 0
  |};
  sb_fruits := [];
  sb_signs := []
|}.

(** A snail block at height [number] over the parent [parent], with one
    fruit per anchor and the fruits root of its fruits. *)
Definition snailBlock (number : Z) (parent : Hash) (anchors : list Z) : SnailBlock := {|
  sb_header := {|
    sh_ParentHash := parent; sh_Coinbase := 0%N;
    sh_FruitsHash := (7000 + N.of_nat (length anchors))%N;
    sh_SignHash := 0%N; sh_FastHash := 0%N; sh_FastNumber := None;
    sh_Difficulty := Some 2000000; sh_FruitDifficulty := None; sh_Number := number;
    sh_Time := Some 3000; sh_Extra := []; sh_MixDigest := 0%N; sh_Nonce := 0
  |};
  sb_fruits := fruit <$> anchors;
  sb_signs := []
|}.

(** The canonical snail chain ends with a block at height 5, of hash 50,
    whose last fruit anchors the fast block 100. *)
Definition parentBlock : SnailBlock := snailBlock 5 40%N (seqZ 41 60).

Definition snailChain : SnailBlockChain := {|
  IsCanonicalBlock h n := (h =? 50)%N && (n =? 5);
  HasBlock h n := (h =? 50)%N && (n =? 5);
  GetBlock h n := if (h =? 50)%N && (n =? 5) then Some parentBlock else None
|}.

(** The header of the fast block [n], of time [t]. *)
Definition fastHeader (n t : Z) : Header := {|
  fh_ParentHash := 0%N; fh_Root := 0%N; fh_Number := n; fh_GasLimit := 0;
  fh_GasUsed := 0; fh_Time := Some t; fh_Extra := []
|}.

(** A fast chain that holds the blocks up to [height]; the block [n] has
    hash [n] and time [time n]. *)
Definition fastChain (height : Z) (time : Z -> Z) : FastBlockChain := {|
  GetHeader h n :=
    if (h =? Z.to_N n)%N && (0 <=? n) && (n <=? height)
    then Some (fastHeader n (time n)) else None;
  CurrentHeader := fastHeader height (time height)
|}.

(** An engine that accepts every fruit. *)
Definition lenientEngine : Engine := {|
  VerifyFreshness _ _ _ _ := None;
  VerifySnailHeader _ _ _ _ _ := None;
  VerifySigns _ _ _ := None;
  VerifySnailSeal _ _ _ := None
|}.

Definition validator (height : Z) (time : Z -> Z) : BlockValidator := {|
  bc := snailChain;
  engine := lenientEngine;
  fastchain := fastChain height time
|}.

(** Fast blocks ten seconds apart. *)
Definition steady (n : Z) : Z := 10 * n.

(** Fast blocks one second apart. *)
Definition crowded (n : Z) : Z := 1000 + n.

(** The fast block 101 at time 1000, the later ones at time 1360. *)
Definition stepAt101 (n : Z) : Z := if n <=? 101 then 1000 else 1360.

(** A candidate at height 6 whose fruits anchor 101, ..., 160. *)
Definition candidate : SnailBlock := snailBlock 6 50%N (seqZ 101 60).

(** A candidate at height 6 without fruits. *)
Definition emptyCandidate : SnailBlock := snailBlock 6 50%N [].

(** Limits that allow any number of fruits up to 600. *)
Definition noMinimum : FruitParams := {|
  MaximumFruits := 600;
  MinimumFruits := 0;
  MinTimeGap := 360
|}.

(** A candidate whose last fruit skips a fast block: 101, ..., 159, 161. *)
Definition gapCandidate : SnailBlock := snailBlock 6 50%N (seqZ 101 59 ++ [161]).

(** The store of a node that has set up the main-net genesis blocks. *)
Definition mainnetStore : DB := storeAfter (SetupGenesisBlock NewMemDatabase None).

Definition withConfig (g : Genesis) (config : option ChainConfig) : Genesis :=
  {| Config := config; Nonce := Nonce g; Timestamp := Timestamp g;
     ExtraData := ExtraData g; GasLimit := GasLimit g; Difficulty := Difficulty g;
     Mixhash := Mixhash g; GenesisCoinbase := GenesisCoinbase g; Alloc := Alloc g;
     Committee := Committee g; GenesisNumber := GenesisNumber g; GasUsed := GasUsed g;
     GenesisParentHash := GenesisParentHash g |}.

Definition withNonce (g : Genesis) (nonce : Z) : Genesis :=
  {| Config := Config g; Nonce := nonce; Timestamp := Timestamp g;
     ExtraData := ExtraData g; GasLimit := GasLimit g; Difficulty := Difficulty g;
     Mixhash := Mixhash g; GenesisCoinbase := GenesisCoinbase g; Alloc := Alloc g;
     Committee := Committee g; GenesisNumber := GenesisNumber g; GasUsed := GasUsed g;
     GenesisParentHash := GenesisParentHash g |}.

(** The test-net specification, without its configuration. *)
Definition testnetNoConfig : Genesis := withConfig DefaultTestnetGenesisBlock None.

(** The main-net specification with another nonce: its fast genesis
    block is the main-net one, its snail genesis block is not. *)
Definition mainnetRenonced : Genesis := withNonce DefaultGenesisBlock 331.

(** A specification whose only committee member carries two bytes in
    place of a public key. *)
Definition badKeyGenesis : Genesis :=
  withCommittee DefaultGenesisBlock
    [{| Coinbase := 0xfC5659050350eB76F9Ebcc6c2b1598C3a2fFc625%N; CommitteeBase := 0%N;
        Publickey := [x04; x01]; Flag := 0; MType := 0 |}].

(** A canonical chain whose last block, at height 5, carries no fruit. *)
Definition barrenParent : SnailBlock := snailBlock 5 40%N [].

Definition barrenValidator : BlockValidator := {|
  bc := {|
    IsCanonicalBlock h n := (h =? 50)%N && (n =? 5);
    HasBlock h n := (h =? 50)%N && (n =? 5);
    GetBlock h n := if (h =? 50)%N && (n =? 5) then Some barrenParent else None
  |};
  engine := lenientEngine;
  fastchain := fastChain 1000 steady
|}.

(** The candidate with another fruits root in its header. *)
Definition misrootedCandidate : SnailBlock := {|
  sb_header := {|
    sh_ParentHash := 50%N; sh_Coinbase := 0%N; sh_FruitsHash := 1%N;
    sh_SignHash := 0%N; sh_FastHash := 0%N; sh_FastNumber := None;
    sh_Difficulty := Some 2000000; sh_FruitDifficulty := None; sh_Number := 6;
    sh_Time := Some 3000; sh_Extra := []; sh_MixDigest := 0%N; sh_Nonce := 0
  |};
  sb_fruits := fruit <$> seqZ 101 60;
  sb_signs := []
|}.

End sample.

(** * Properties of the block validator *)

Module validator_props.

Import snailchain.

Ltac unfold_res := unfold mbind, res_bind, mret, res_ret, lift in *.

Section Arithmetic.

Lemma Uint64_range (x : Z) : 0 <= Uint64 x < 2 ^ 64.
Proof. unfold Uint64. apply Z.mod_pos_bound. reflexivity. Qed.

Lemma sub64_one (n temp : Z) :
  0 <= n < 2 ^ 64 -> 0 <= temp < 2 ^ 64 ->
  (sub64 n temp =? 1) = (n =? (temp + 1) mod 2 ^ 64).
Proof.
  intros Hn Ht. unfold sub64.
  change (2 ^ 64) with 18446744073709551616 in *.
  destruct (Z.eqb_spec ((n - temp) mod 18446744073709551616) 1) as [E | E];
    destruct (Z.eqb_spec n ((temp + 1) mod 18446744073709551616)) as [E' | E'];
    try reflexivity; exfalso; revert E E'; Z.div_mod_to_equations; lia.
Qed.

End Arithmetic.

Section Validator.

Context `{TypesPkg} `{FruitParams}.

Implicit Types (v : BlockValidator) (block fruit : SnailBlock).

Lemma fastNumberU64_range fruit n : fastNumberU64 fruit = Ok n -> 0 <= n < 2 ^ 64.
Proof.
  unfold fastNumberU64. destruct (FastNumber fruit); [|discriminate].
  intros [= <-]. apply Uint64_range.
Qed.

Lemma parentAnchor_range v block temp :
  parentAnchor v block = Ok temp -> 0 <= temp < 2 ^ 64.
Proof.
  unfold parentAnchor.
  destruct (GetBlock _ _ _) as [preBlock|]; [|discriminate].
  destruct (Number preBlock >? 0).
  - destruct (last _) as [f|]; [|discriminate]. apply fastNumberU64_range.
  - intros [= <-]. split; [lia | reflexivity].
Qed.

(** A run of the loop that succeeds has seen contiguous fast numbers. *)
Lemma validateFruits_contiguous v block fruits : forall temp,
  0 <= temp < 2 ^ 64 ->
  validateFruits v block temp fruits = Ok tt -> contiguous temp fruits = true.
Proof.
  induction fruits as [|fruit rest IH]; intros temp Ht; simpl; [reflexivity|].
  unfold fastNumberU64. destruct (FastNumber fruit) as [n|]; [|discriminate].
  unfold_res. rewrite (sub64_one _ _ (Uint64_range n) Ht).
  destruct (Uint64 n =? (temp + 1) mod 2 ^ 64); simpl; [|discriminate].
  destruct (ValidateFruit v fruit (Some block) false) as [[]| |]; try discriminate.
  apply IH, Uint64_range.
Qed.

(** After a prefix that passes, the loop goes on with the anchor that
    the prefix leaves. *)
Lemma validateFruits_app v block pre rest : forall temp,
  validateFruits v block temp pre = Ok tt ->
  validateFruits v block temp (pre ++ rest)
  = validateFruits v block (anchorAfter temp pre) rest.
Proof.
  induction pre as [|fruit pre IH]; intros temp; simpl; [reflexivity|].
  unfold fastNumberU64. destruct (FastNumber fruit) as [n|]; [|discriminate].
  unfold_res. destruct (negb _); [discriminate|].
  destruct (ValidateFruit v fruit (Some block) false) as [[]| |]; try discriminate.
  apply IH.
Qed.

Lemma anchorAfter_range pre : forall temp,
  0 <= temp < 2 ^ 64 -> 0 <= anchorAfter temp pre < 2 ^ 64.
Proof.
  induction pre as [|fruit pre IH]; intros temp Ht; simpl; [exact Ht|].
  apply IH. destruct (FastNumber fruit); [apply Uint64_range | exact Ht].
Qed.

(** The loop stops with the sequence error at the first fruit that does
    not follow the anchor, once the fruits before it have passed. *)
Lemma validateFruits_out_of_sequence v block temp pre fruit post n :
  0 <= temp < 2 ^ 64 ->
  validateFruits v block temp pre = Ok tt ->
  FastNumber fruit = Some n ->
  Uint64 n <> (anchorAfter temp pre + 1) mod 2 ^ 64 ->
  validateFruits v block temp (pre ++ fruit :: post) = Err ErrInvalidFruits.
Proof.
  intros Ht Hpre Hn Hneq. rewrite validateFruits_app by exact Hpre. simpl.
  unfold fastNumberU64. rewrite Hn. unfold_res.
  rewrite (sub64_one _ _ (Uint64_range n) (anchorAfter_range pre temp Ht)).
  destruct (Z.eqb_spec (Uint64 n) ((anchorAfter temp pre + 1) mod 2 ^ 64)); [contradiction|].
  reflexivity.
Qed.

(** When every fruit passes its validation, the loop ends with the
    sequence error as soon as the fast numbers are not contiguous. *)
Lemma validateFruits_not_contiguous v block fruits : forall temp,
  0 <= temp < 2 ^ 64 ->
  Forall (fun fruit => ValidateFruit v fruit (Some block) false = Ok tt) fruits ->
  contiguous temp fruits = false ->
  validateFruits v block temp fruits = Err ErrInvalidFruits.
Proof.
  induction fruits as [|fruit rest IH]; intros temp Ht Hvalid; simpl; [discriminate|].
  apply Forall_cons in Hvalid as [Hfruit Hrest].
  unfold fastNumberU64. destruct (FastNumber fruit) as [n|] eqn:En.
  - unfold_res. rewrite (sub64_one _ _ (Uint64_range n) Ht).
    destruct (Uint64 n =? (temp + 1) mod 2 ^ 64); simpl; [|reflexivity].
    rewrite Hfruit. intros Hgap. apply IH; [apply Uint64_range | exact Hrest | exact Hgap].
  - unfold ValidateFruit in Hfruit. unfold FastNumber in En, Hfruit.
    rewrite En in Hfruit. discriminate.
Qed.

(** The outcome of [ValidateBody] once the first three checks pass. *)
Lemma ValidateBody_linked v block :
  checkKnown v block = Ok tt -> checkAncestor v block = Ok tt ->
  checkFruitCount (Z.of_nat (length (Fruits block))) = Ok tt ->
  ValidateBody v block = validateLinked v block.
Proof. intros H1 H2 H3. unfold ValidateBody. rewrite H1, H2, H3. reflexivity. Qed.

(** The outcome of [ValidateBody] when the checks before the loop pass. *)
Lemma ValidateBody_sequence v block temp minfb maxfb :
  checkKnown v block = Ok tt -> checkAncestor v block = Ok tt ->
  checkFruitCount (Z.of_nat (length (Fruits block))) = Ok tt ->
  parentAnchor v block = Ok temp ->
  anchoredRange v (Fruits block) = Ok (minfb, maxfb) ->
  checkBlockTime block (Fruits block) = Ok tt ->
  checkTimeGap minfb maxfb = Ok tt ->
  ValidateBody v block = validateSequence v block temp.
Proof.
  intros H1 H2 H3 H4 H5 H6 H7. rewrite ValidateBody_linked by assumption.
  unfold validateLinked. rewrite H4. simpl. rewrite H5. simpl. rewrite H6, H7. reflexivity.
Qed.

(** C6. A candidate that is not yet known and links to a canonical
    parent is rejected with [ErrNoFruits] when it carries no fruit, more
    fruits than [MaximumFruits] or fewer than [MinimumFruits], whatever
    the configured minimum; a non-zero count within the inclusive range
    passes the fruit-count check, and the outcome is then that of the
    checks that follow. *)
Theorem ValidateBody_fruit_count v block :
  checkKnown v block = Ok tt ->
  checkAncestor v block = Ok tt ->
  let count := Z.of_nat (length (Fruits block)) in
  (count = 0 \/ count > MaximumFruits \/ count < MinimumFruits ->
   ValidateBody v block = Err ErrNoFruits) /\
  (count <> 0 -> MinimumFruits <= count <= MaximumFruits ->
   checkFruitCount count = Ok tt /\ ValidateBody v block = validateLinked v block).
Proof.
  intros Hk Ha count. split.
  - intros Hbad. unfold ValidateBody. rewrite Hk, Ha. fold count.
    unfold checkFruitCount. simpl.
    destruct (Z.eqb_spec count 0) as [|Hz]; [reflexivity|].
    destruct (Z.gtb_spec count MaximumFruits); simpl; [reflexivity|].
    destruct (Z.ltb_spec count MinimumFruits); [reflexivity|]. lia.
  - intros Hz Hrange.
    assert (Hc : checkFruitCount count = Ok tt).
    { unfold checkFruitCount.
      destruct (Z.eqb_spec count 0); [contradiction|].
      destruct (Z.gtb_spec count MaximumFruits); [lia|].
      destruct (Z.ltb_spec count MinimumFruits); [lia|]. reflexivity. }
    split; [exact Hc|]. apply ValidateBody_linked; assumption.
Qed.

(** C7. A candidate that reaches the time-gap check fails with
    [ErrGapFruits] when the time of the last anchored fast header minus
    the time of the first is strictly below [MinTimeGap]; when the
    difference is exactly [MinTimeGap] the check passes and the outcome
    is that of the checks that follow. *)
Theorem ValidateBody_time_gap v block temp minfb maxfb tmin tmax :
  checkKnown v block = Ok tt ->
  checkAncestor v block = Ok tt ->
  checkFruitCount (Z.of_nat (length (Fruits block))) = Ok tt ->
  parentAnchor v block = Ok temp ->
  anchoredRange v (Fruits block) = Ok (minfb, maxfb) ->
  checkBlockTime block (Fruits block) = Ok tt ->
  fh_Time minfb = Some tmin ->
  fh_Time maxfb = Some tmax ->
  (tmax - tmin < MinTimeGap -> ValidateBody v block = Err ErrGapFruits) /\
  (tmax - tmin = MinTimeGap ->
   checkTimeGap minfb maxfb = Ok tt /\ ValidateBody v block = validateSequence v block temp).
Proof.
  intros H1 H2 H3 H4 H5 H6 Hmin Hmax.
  assert (Hgap : checkTimeGap minfb maxfb
                 = if tmax - tmin <? MinTimeGap then Err ErrGapFruits else Ok tt).
  { unfold checkTimeGap, bigSub. rewrite Hmin, Hmax. reflexivity. }
  split.
  - intros Hlt. rewrite ValidateBody_linked by assumption.
    unfold validateLinked. rewrite H4. simpl. rewrite H5. simpl. rewrite H6, Hgap.
    destruct (Z.ltb_spec (tmax - tmin) MinTimeGap); [reflexivity | lia].
  - intros Heq.
    assert (Hok : checkTimeGap minfb maxfb = Ok tt).
    { rewrite Hgap. destruct (Z.ltb_spec (tmax - tmin) MinTimeGap); [lia | reflexivity]. }
    split; [exact Hok|]. eapply ValidateBody_sequence; eassumption.
Qed.

(** C1, as amended.  For a candidate accepted past the ancestor and
    fruit-count checks, with [temp] the anchor of the parent:
    [ValidateBody] accepts only if every fruit, in order, anchors the
    fast number following [temp] in 64-bit arithmetic, [temp] advancing
    with each fruit, so that a gap or a repeat makes it fail; and it
    fails with [ErrInvalidFruits] when the range, block-time and
    time-gap checks pass and the fruits before the first one out of
    sequence pass their validation. *)
Theorem ValidateBody_contiguity v block temp :
  checkKnown v block = Ok tt ->
  checkAncestor v block = Ok tt ->
  checkFruitCount (Z.of_nat (length (Fruits block))) = Ok tt ->
  parentAnchor v block = Ok temp ->
  (ValidateBody v block = Ok tt -> contiguous temp (Fruits block) = true) /\
  (contiguous temp (Fruits block) = false -> ValidateBody v block <> Ok tt) /\
  (forall minfb maxfb pre fruit post n,
     anchoredRange v (Fruits block) = Ok (minfb, maxfb) ->
     checkBlockTime block (Fruits block) = Ok tt ->
     checkTimeGap minfb maxfb = Ok tt ->
     Fruits block = pre ++ fruit :: post ->
     validateFruits v block temp pre = Ok tt ->
     FastNumber fruit = Some n ->
     Uint64 n <> (anchorAfter temp pre + 1) mod 2 ^ 64 ->
     ValidateBody v block = Err ErrInvalidFruits).
Proof.
  intros H1 H2 H3 H4.
  pose proof (parentAnchor_range _ _ _ H4) as Ht.
  assert (Hacc : ValidateBody v block = Ok tt -> contiguous temp (Fruits block) = true).
  { rewrite ValidateBody_linked by assumption.
    unfold validateLinked. rewrite H4. simpl.
    destruct (anchoredRange v (Fruits block)) as [[minfb maxfb]| |]; simpl; try discriminate.
    destruct (checkBlockTime block (Fruits block)) as [[]| |]; simpl; try discriminate.
    destruct (checkTimeGap minfb maxfb) as [[]| |]; simpl; try discriminate.
    unfold validateSequence.
    destruct (validateFruits v block temp (Fruits block)) as [[]| |] eqn:E;
      simpl; try discriminate.
    intros _. eapply validateFruits_contiguous; eassumption. }
  split; [exact Hacc|]. split.
  - intros Hfalse Hok. rewrite (Hacc Hok) in Hfalse. discriminate.
  - intros minfb maxfb pre fruit post n H5 H6 H7 Hsplit Hpre Hn Hneq.
    rewrite (ValidateBody_sequence v block temp minfb maxfb) by assumption.
    unfold validateSequence. rewrite Hsplit.
    rewrite (validateFruits_out_of_sequence v block temp pre fruit post n) by assumption.
    reflexivity.
Qed.

(** The loop of [ValidateBody] applies, fruit after fruit, the sequence
    check and then the validation of the fruit. *)
Lemma runStages_fruits v block suf : forall pre temp tl,
  Fruits block = pre ++ suf ->
  anchorBefore v block (length pre) = Ok temp ->
  runStages v block
    (flat_map (fun i => [SSequence i; SFruit i]) (seq (length pre) (length suf)) ++ tl)
  = (validateFruits v block temp suf;; runStages v block tl).
Proof.
  induction suf as [|fruit suf IH]; intros pre temp tl Hsplit Hanchor; [reflexivity|].
  assert (Hlook : Fruits block !! length pre = Some fruit).
  { rewrite Hsplit. rewrite lookup_app_r by lia.
    replace (length pre - length pre)%nat with 0%nat by lia. reflexivity. }
  cbn [length seq flat_map app runStages stageResult validateFruits].
  unfold checkSequence. rewrite Hanchor, Hlook. unfold_res.
  destruct (fastNumberU64 fruit) as [n| |] eqn:En; try reflexivity.
  destruct (negb (sub64 n temp =? 1)); [reflexivity|].
  destruct (ValidateFruit v fruit (Some block) false) as [[]| |]; try reflexivity.
  specialize (IH (pre ++ [fruit]) n tl).
  rewrite length_app in IH. cbn [length] in IH.
  replace (length pre + 1)%nat with (S (length pre)) in IH by lia.
  apply IH.
  - rewrite Hsplit, <- app_assoc. reflexivity.
  - cbn [anchorBefore]. rewrite Hlook. exact En.
Qed.

(** C5, as amended.  [ValidateBody] applies its checks one after the
    other and stops at the first that fails, in this order: known block,
    ancestor, fruit count, parent lookup, anchored-range resolution,
    block time, minimum time gap, then for each fruit in turn its
    sequence check followed by its validation, and last the fruits
    root.  The sequence check of a fruit thus comes after the range, time
    and gap checks and after the validation of the fruits before it. *)
Theorem ValidateBody_code_order v block :
  ValidateBody v block = runStages v block (codeOrder (length (Fruits block))).
Proof.
  unfold ValidateBody, codeOrder.
  cbn [app runStages stageResult]. unfold_res.
  destruct (checkKnown v block) as [[]| |]; try reflexivity.
  destruct (checkAncestor v block) as [[]| |]; try reflexivity.
  destruct (checkFruitCount _) as [[]| |]; try reflexivity.
  unfold validateLinked. unfold_res.
  destruct (parentAnchor v block) as [temp| |] eqn:Etemp; try reflexivity.
  destruct (anchoredRange v (Fruits block)) as [[minfb maxfb]| |]; try reflexivity.
  destruct (checkBlockTime block (Fruits block)) as [[]| |]; try reflexivity.
  destruct (checkTimeGap minfb maxfb) as [[]| |]; try reflexivity.
  unfold validateSequence.
  pose proof (runStages_fruits v block (Fruits block) [] temp [SHash] eq_refl Etemp) as Hloop.
  cbn [length] in Hloop. rewrite Hloop.
  unfold_res. cbn [runStages stageResult]. unfold_res.
  destruct (validateFruits v block temp (Fruits block)) as [[]| |]; try reflexivity.
  destruct (checkFruitsHash block) as [[]| |]; reflexivity.
Qed.

End Validator.

Import sample.

(** A candidate whose fruits anchor the fast blocks 101 to 160 after a
    parent anchored at 100 is accepted. *)
Example ValidateBody_candidate :
  ValidateBody (sample.validator 1000 sample.steady) sample.candidate = Ok tt.
Proof. vm_compute. reflexivity. Qed.

(** C1, as stated, fails: the candidate passes the ancestor and
    fruit-count checks and its last fruit skips the fast block 160, yet
    it is rejected with [ErrFutureBlock], since the fast block 161 that
    this fruit anchors is not in the fast chain. *)
Lemma ValidateBody_gap_future_block :
  let v := sample.validator 160 sample.steady in
  checkKnown v sample.gapCandidate = Ok tt /\
  checkAncestor v sample.gapCandidate = Ok tt /\
  checkFruitCount (Z.of_nat (length (Fruits sample.gapCandidate))) = Ok tt /\
  parentAnchor v sample.gapCandidate = Ok 100 /\
  contiguous 100 (Fruits sample.gapCandidate) = false /\
  ValidateBody v sample.gapCandidate = Err ErrFutureBlock /\
  ValidateBody v sample.gapCandidate <> Err ErrInvalidFruits.
Proof. vm_compute. repeat split; discriminate. Qed.

(** C5, as stated, fails: on a candidate whose last fruit is out of
    sequence and anchors a fast block that the fast chain lacks, the
    checks in the order of the specification end with the sequence
    error, whereas [ValidateBody] ends with [ErrFutureBlock]: it resolves
    the anchored range before it checks the sequence. *)
Lemma ValidateBody_not_spec_order :
  let v := sample.validator 160 sample.steady in
  let n := length (Fruits sample.gapCandidate) in
  runStages v sample.gapCandidate (specOrder n) = Err ErrInvalidFruits /\
  ValidateBody v sample.gapCandidate = Err ErrFutureBlock /\
  ValidateBody v sample.gapCandidate <> runStages v sample.gapCandidate (specOrder n).
Proof. vm_compute. repeat split; discriminate. Qed.

(** C6 on a candidate without fruits, under a minimum of zero, and on
    a candidate with sixty fruits. *)
Lemma ValidateBody_fruit_count_witness :
  @ValidateBody types noMinimum (validator 1000 steady) emptyCandidate = Err ErrNoFruits /\
  checkFruitCount (Z.of_nat (length (Fruits candidate))) = Ok tt /\
  ValidateBody (validator 1000 steady) candidate
  = validateLinked (validator 1000 steady) candidate.
Proof.
  split.
  - apply (@ValidateBody_fruit_count types noMinimum (validator 1000 steady) emptyCandidate);
      [reflexivity | reflexivity | left; reflexivity].
  - apply (ValidateBody_fruit_count (validator 1000 steady) candidate);
      [reflexivity | reflexivity | vm_compute; discriminate | vm_compute; split; discriminate].
Defined.

(** C7 on fast blocks one second apart, and on a range of exactly
    360 seconds. *)
Lemma ValidateBody_time_gap_witness :
  ValidateBody (validator 1000 crowded) candidate = Err ErrGapFruits /\
  checkTimeGap (fastHeader 101 1000) (fastHeader 160 1360) = Ok tt /\
  ValidateBody (validator 1000 stepAt101) candidate
  = validateSequence (validator 1000 stepAt101) candidate 100.
Proof.
  split.
  - apply (ValidateBody_time_gap (validator 1000 crowded) candidate 100
             (fastHeader 101 1101) (fastHeader 160 1160) 1101 1160);
      try reflexivity.
  - apply (ValidateBody_time_gap (validator 1000 stepAt101) candidate 100
             (fastHeader 101 1000) (fastHeader 160 1360) 1000 1360);
      reflexivity.
Defined.

(** C1, as amended, on the candidate whose last fruit skips the fast
    block 160, the fast chain holding the block 161 that it anchors. *)
Lemma ValidateBody_contiguity_witness :
  contiguous 100 (Fruits gapCandidate) = false /\
  ValidateBody (validator 1000 steady) gapCandidate = Err ErrInvalidFruits.
Proof.
  split; [reflexivity|].
  destruct (ValidateBody_contiguity (validator 1000 steady) gapCandidate 100)
    as (_ & _ & Hseq); [reflexivity | reflexivity | reflexivity | reflexivity |].
  apply Hseq
    with (minfb := fastHeader 101 1010) (maxfb := fastHeader 161 1610)
         (pre := fruit <$> seqZ 101 59) (fruit := fruit 161) (post := []) (n := 161);
    try reflexivity.
  vm_compute. discriminate.
Defined.

End validator_props.

(** * Properties of the genesis coordinator *)

Module genesis_props.

Import core.

Ltac unfold_exec := unfold mbind, exec_bind, mret, exec_ret in *.

Section Genesis.

Context `{TypesPkg} `{ParamsPkg} `{CryptoPkg} `{StatePkg}.

Implicit Types (g : Genesis) (db : DB) (member : CommitteeMember).

(** The loop returns when every key decodes. *)
Lemma normalizeCommittee_total members :
  Forall (fun member => is_Some (UnmarshalPubkey (Publickey member))) members ->
  exists members', normalizeCommittee members = Done members'.
Proof.
  induction 1 as [|member rest [pubkey Hkey] _ [rest' IH]]; simpl.
  - eexists. reflexivity.
  - rewrite Hkey, IH. eexists. reflexivity.
Qed.

(** The loop panics when some key does not decode. *)
Lemma normalizeCommittee_panic members :
  Exists (fun member => UnmarshalPubkey (Publickey member) = None) members ->
  normalizeCommittee members = Panicked.
Proof.
  induction 1 as [member rest Hkey | member rest _ IH]; simpl.
  - rewrite Hkey. reflexivity.
  - destruct (UnmarshalPubkey (Publickey member)); [|reflexivity].
    rewrite IH. reflexivity.
Qed.

(** The members that the loop leaves are the given ones, in order, each
    of them normalized. *)
Lemma normalizeCommittee_spec members : forall members',
  normalizeCommittee members = Done members' ->
  Forall2 (fun member member' =>
             Publickey member' = Publickey member /\ Coinbase member' = Coinbase member)
          members members' /\
  Forall normalized members'.
Proof.
  induction members as [|member rest IH]; simpl; intros members'.
  - intros [= <-]. split; constructor.
  - destruct (UnmarshalPubkey (Publickey member)) as [pubkey|] eqn:Hkey; [|discriminate].
    destruct (normalizeCommittee rest) as [rest'|]; [|discriminate].
    intros [= <-]. destruct (IH rest' eq_refl) as [IH1 IH2].
    split; constructor; auto.
    exists pubkey. simpl. auto.
Qed.

(** [ToFastBlock] returns exactly when the loop over the committee does;
    the block does not depend on the database. *)
Lemma ToFastBlock_Done g (db : option DB) g' block db' :
  ToFastBlock g db = Done (g', block, db') ->
  exists members,
    normalizeCommittee (Committee g) = Done members /\
    g' = withCommittee g members /\
    b_infos block = members /\
    db' = commitState (default NewMemDatabase db) (Alloc g) /\
    forall db2 : option DB,
      ToFastBlock g db2
      = Done (g', block, commitState (default NewMemDatabase db2) (Alloc g)).
Proof.
  unfold ToFastBlock. unfold_exec.
  destruct (normalizeCommittee (Committee g)) as [members|]; [|discriminate].
  intros [= <- <- <-]. exists members. repeat split; reflexivity.
Qed.

Lemma ToFastBlock_total g (db : option DB) :
  validKeys g -> exists g' block db', ToFastBlock g db = Done (g', block, db').
Proof.
  intros Hkeys. destruct (normalizeCommittee_total _ Hkeys) as [members Hm].
  unfold ToFastBlock. rewrite Hm. unfold_exec. eauto.
Qed.

Lemma ToFastBlock_panic g (db : option DB) :
  invalidKey g -> ToFastBlock g db = Panicked.
Proof.
  intros Hbad. unfold ToFastBlock. rewrite (normalizeCommittee_panic _ Hbad). reflexivity.
Qed.

(** C8. [ToFastBlock] returns a block whenever every committee key of
    the specification decodes; in the block it returns, and so in the
    block that [CommitFast] commits, the members are those of the
    specification, in order, and each of them is active and fixed, with
    the address of its public key as committee-base address. *)
Theorem ToFastBlock_committee g :
  (forall db : option DB,
     validKeys g -> exists g' block db', ToFastBlock g db = Done (g', block, db')) /\
  (forall (db : option DB) g' block db',
     ToFastBlock g db = Done (g', block, db') ->
     Forall normalized (b_infos block) /\
     Forall2 (fun member member' =>
                Publickey member' = Publickey member /\ Coinbase member' = Coinbase member)
             (Committee g) (b_infos block) /\
     Committee g' = b_infos block) /\
  (forall db g' block err db',
     CommitFast g db = Done ((Some block, err), g', db') ->
     Forall normalized (b_infos block)).
Proof.
  split; [|split].
  - intros db. apply ToFastBlock_total.
  - intros db g' block db' Hdone.
    destruct (ToFastBlock_Done _ _ _ _ _ Hdone) as (members & Hm & -> & -> & _).
    destruct (normalizeCommittee_spec _ _ Hm) as [Hsame Hnorm].
    repeat split; assumption.
  - intros db g' block err db'. unfold CommitFast. unfold_exec.
    destruct (ToFastBlock g (Some db)) as [[[g1 block1] db1]|] eqn:Hfast; [|discriminate].
    destruct (ToFastBlock_Done _ _ _ _ _ Hfast) as (members & Hm & _ & Hinfos & _).
    destruct (negb _); [discriminate|].
    intros [= <- _ _ _]. rewrite Hinfos.
    apply (normalizeCommittee_spec _ _ Hm).
Qed.

(** The fast genesis block does not depend on the difficulty of the
    specification. *)
Lemma ToFastBlock_withDifficulty g d (db : option DB) g' block db' :
  ToFastBlock (withDifficulty g d) db = Done (g', block, db') ->
  exists g1, ToFastBlock g db = Done (g1, block, db').
Proof.
  unfold ToFastBlock. simpl. unfold_exec.
  destruct (normalizeCommittee (Committee g)) as [members|]; [|discriminate].
  intros [= <- <- <-]. eexists. reflexivity.
Qed.

(** The shape of the snail genesis block: one fruit, which anchors the
    fast genesis block [fastBlock] and carries neither signatures nor
    fruits. *)
Lemma ToSnailBlock_Done g (db : option DB) g' block db' :
  ToSnailBlock g db = Done (g', block, db') ->
  exists g1 fastBlock fruit,
    ToFastBlock g db = Done (g1, fastBlock, db') /\
    Fruits block = [fruit] /\
    FastNumber fruit = Some (fh_Number (b_header fastBlock)) /\
    FastHash fruit = BlockHash fastBlock /\
    Signs fruit = [] /\
    Fruits fruit = [] /\
    Signs block = [].
Proof.
  unfold ToSnailBlock. unfold_exec.
  destruct (ToFastBlock (withDifficulty g _) _) as [[[g2 fastBlock] db2]|] eqn:Hfast;
    [|discriminate].
  destruct (bigDiv _ _) as [fd|]; [|discriminate].
  intros [= <- <- <-].
  destruct (ToFastBlock_withDifficulty _ _ _ _ _ _ Hfast) as [g1 Hg1].
  destruct (ToFastBlock_Done _ _ _ _ _ Hg1) as (members & _ & _ & _ & -> & Hany).
  exists g1, fastBlock. eexists. split; [|repeat split; reflexivity].
  rewrite (Hany db). destruct db; reflexivity.
Qed.

(** C9. [ToSnailBlock] returns a block whenever every committee key of
    the specification decodes and the fruit ratio is not zero; the block
    it returns contains exactly one fruit, whose anchored fast number
    and fast hash are the number and the hash of the fast genesis block
    that [ToFastBlock] derives from the same specification, and which
    carries no signatures. *)
Theorem ToSnailBlock_single_fruit g (db : option DB) :
  (validKeys g -> FruitBlockRatio <> 0 ->
   exists g' block db', ToSnailBlock g db = Done (g', block, db')) /\
  (forall g' block db',
     ToSnailBlock g db = Done (g', block, db') ->
     exists g1 fastBlock fruit,
       ToFastBlock g db = Done (g1, fastBlock, db') /\
       Fruits block = [fruit] /\
       FastNumber fruit = Some (fh_Number (b_header fastBlock)) /\
       FastHash fruit = BlockHash fastBlock /\
       Signs fruit = []).
Proof.
  split.
  - intros Hkeys Hratio.
    destruct (ToFastBlock_total (withDifficulty g (default GenesisDifficulty (Difficulty g)))
                (Some (default NewMemDatabase db)) Hkeys)
      as (g1 & fastBlock & db1 & Hfast).
    unfold ToSnailBlock. rewrite Hfast. unfold_exec. unfold bigDiv.
    destruct (Z.eqb_spec FruitBlockRatio 0); [contradiction|].
    destruct (FruitBlockRatio >? 0); eauto.
  - intros g' block db' Hdone.
    destruct (ToSnailBlock_Done _ _ _ _ _ Hdone)
      as (g1 & fastBlock & fruit & Hfast & Hfruits & Hnum & Hhash & Hsigns & _).
    exists g1, fastBlock, fruit. auto.
Qed.

(** The configuration of the specification is left as it is. *)
Lemma ToFastBlock_Config g (db : option DB) g' block db' :
  ToFastBlock g db = Done (g', block, db') -> Config g' = Config g.
Proof.
  intros Hdone. destruct (ToFastBlock_Done _ _ _ _ _ Hdone) as (members & _ & -> & _).
  reflexivity.
Qed.

Lemma ToSnailBlock_Config g (db : option DB) g' block db' :
  ToSnailBlock g db = Done (g', block, db') -> Config g' = Config g.
Proof.
  unfold ToSnailBlock. unfold_exec.
  destruct (ToFastBlock (withDifficulty g _) _) as [[[g2 fastBlock] db2]|] eqn:Hfast;
    [|discriminate].
  destruct (bigDiv _ _); [|discriminate].
  intros [= <- _ _]. rewrite (ToFastBlock_Config _ _ _ _ _ Hfast). reflexivity.
Qed.

(** C3. A call of [SetupGenesisBlock] with a specification that has no
    configuration returns [errGenesisNoConfig] and the database it was
    given, whatever this database holds: nothing is written.  The fast
    and the snail setup, were they called, would do the same. *)
Theorem SetupGenesisBlock_no_config db g :
  Config g = None ->
  SetupGenesisBlock db (Some g)
  = Done ((Some AllMinervaProtocolChanges, zeroHash, zeroHash, Some errGenesisNoConfig),
          Some g, db) /\
  storeAfter (SetupGenesisBlock db (Some g)) = db /\
  setupFastGenesisBlock db (Some g)
  = Done ((Some AllMinervaProtocolChanges, zeroHash, Some errGenesisNoConfig), Some g, db) /\
  setupSnailGenesisBlock db (Some g)
  = Done ((Some AllMinervaProtocolChanges, zeroHash, Some errGenesisNoConfig), Some g, db).
Proof.
  intros Hnil.
  assert (Hlacks : lacksConfig (Some g) = true) by (simpl; rewrite Hnil; reflexivity).
  unfold SetupGenesisBlock, setupFastGenesisBlock, setupSnailGenesisBlock.
  rewrite Hlacks. repeat split; reflexivity.
Qed.

(** C2, as amended.  For a specification that carries a configuration
    and a database whose canonical hash at height zero exists and
    differs from the hash of the genesis block recomputed from the
    specification, the fast and the snail setup each return
    [GenesisMismatchError] with the stored and the recomputed hash, and
    the database they were given. *)
Theorem setupGenesisBlock_mismatch db g :
  lacksConfig (Some g) = false ->
  (forall g' block mem,
     ReadCanonicalHash db 0 <> zeroHash ->
     ToFastBlock g None = Done (g', block, mem) ->
     BlockHash block <> ReadCanonicalHash db 0 ->
     setupFastGenesisBlock db (Some g)
     = Done ((Config g, BlockHash block,
              Some (GenesisMismatchError (ReadCanonicalHash db 0) (BlockHash block))),
             Some g', db)) /\
  (forall g' block mem,
     SnailReadCanonicalHash db 0 <> zeroHash ->
     ToSnailBlock g None = Done (g', block, mem) ->
     SnailBlockHash block <> SnailReadCanonicalHash db 0 ->
     setupSnailGenesisBlock db (Some g)
     = Done ((Config g, SnailBlockHash block,
              Some (GenesisMismatchError (SnailReadCanonicalHash db 0) (SnailBlockHash block))),
             Some g', db)).
Proof.
  intros Hcfg. split; intros g' block mem Hstored Hblock Hneq.
  - unfold setupFastGenesisBlock. rewrite Hcfg.
    destruct (N.eqb_spec (ReadCanonicalHash db 0) zeroHash); [contradiction|].
    rewrite Hblock. unfold_exec.
    destruct (N.eqb_spec (BlockHash block) (ReadCanonicalHash db 0)); [contradiction|].
    simpl. rewrite (ToFastBlock_Config _ _ _ _ _ Hblock). reflexivity.
  - unfold setupSnailGenesisBlock. rewrite Hcfg.
    destruct (N.eqb_spec (SnailReadCanonicalHash db 0) zeroHash); [contradiction|].
    rewrite Hblock. unfold_exec.
    destruct (N.eqb_spec (SnailBlockHash block) (SnailReadCanonicalHash db 0)); [contradiction|].
    simpl. rewrite (ToSnailBlock_Config _ _ _ _ _ Hblock). reflexivity.
Qed.

(** C10. When some committee member of the specification carries bytes
    that do not encode a public key, the construction of the genesis
    block returns no error: [ToFastBlock] panics on the nil key, and so
    do [CommitFast] and, for a specification with a configuration,
    [SetupGenesisBlock] on a database without a fast genesis block. *)
Theorem ToFastBlock_invalid_key_panics g :
  invalidKey g ->
  (forall db : option DB, ToFastBlock g db = Panicked) /\
  (forall db, CommitFast g db = Panicked) /\
  (forall db,
     lacksConfig (Some g) = false ->
     ReadCanonicalHash db 0 = zeroHash ->
     SetupGenesisBlock db (Some g) = Panicked).
Proof.
  intros Hbad.
  assert (Hcommit : forall db, CommitFast g db = Panicked).
  { intros db. unfold CommitFast. rewrite (ToFastBlock_panic g (Some db) Hbad). reflexivity. }
  split; [|split].
  - intros db. apply ToFastBlock_panic, Hbad.
  - exact Hcommit.
  - intros db Hcfg Hempty.
    unfold SetupGenesisBlock, setupFastGenesisBlock. rewrite Hcfg, Hempty.
    simpl. rewrite Hcommit. reflexivity.
Qed.

(** The error that [SetupGenesisBlock] returns is the error of the fast
    setup; the configuration and the error of the snail setup are not
    part of what it returns. *)
Lemma SetupGenesisBlock_returns db genesis fastConfig fastHash fastErr
    (spec1 : option Genesis) db1 snailConfig snailHash snailErr (spec2 : option Genesis) db2 :
  lacksConfig genesis = false ->
  setupFastGenesisBlock db genesis = Done ((fastConfig, fastHash, fastErr), spec1, db1) ->
  setupSnailGenesisBlock db1 spec1 = Done ((snailConfig, snailHash, snailErr), spec2, db2) ->
  SetupGenesisBlock db genesis
  = Done ((fastConfig, fastHash, snailHash, fastErr), spec2, db2).
Proof.
  intros Hcfg Hfast Hsnail. unfold SetupGenesisBlock.
  rewrite Hcfg, Hfast. unfold_exec. rewrite Hsnail. reflexivity.
Qed.

End Genesis.

Import sample.

(** C2, as stated, fails: the database holds the main-net genesis block,
    of hash 1014, and the fast genesis block recomputed from the
    test-net specification without configuration has another hash; the
    fast setup returns [errGenesisNoConfig], not a mismatch error. *)
Lemma setupFastGenesisBlock_no_config_first :
  ReadCanonicalHash mainnetStore 0 = 1014%N /\
  (exists g' block mem,
     ToFastBlock testnetNoConfig None = Done (g', block, mem) /\
     BlockHash block = 1537892207%N) /\
  setupFastGenesisBlock mainnetStore (Some testnetNoConfig)
  = Done ((Some AllMinervaProtocolChanges, zeroHash, Some errGenesisNoConfig),
          Some testnetNoConfig, mainnetStore).
Proof.
  split; [vm_compute; reflexivity|]. split; [|vm_compute; reflexivity].
  destruct (ToFastBlock testnetNoConfig None) as [[[g' block] mem]|] eqn:E;
    [|vm_compute in E; discriminate].
  exists g', block, mem. split; [reflexivity|].
  vm_compute in E. injection E as _ <- _. vm_compute. reflexivity.
Qed.

(** C4 fails on the code: the database holds the main-net genesis
    blocks and the specification differs from the main-net one in its
    nonce.  The fast setup succeeds, the snail setup returns a mismatch
    error, and [SetupGenesisBlock] returns no error, together with the
    recomputed snail hash 331 in place of the stored one, 330. *)
Lemma SetupGenesisBlock_drops_snail_error :
  exists g1 db1 g2 db2,
    setupFastGenesisBlock mainnetStore (Some mainnetRenonced)
    = Done ((Some MainnetChainConfig, 1014%N, None), g1, db1) /\
    setupSnailGenesisBlock db1 g1
    = Done ((Some MainnetChainConfig, 331%N, Some (GenesisMismatchError 330 331)), g2, db2) /\
    SetupGenesisBlock mainnetStore (Some mainnetRenonced)
    = Done ((Some MainnetChainConfig, 1014%N, 331%N, None), g2, db2).
Proof.
  destruct (setupFastGenesisBlock mainnetStore (Some mainnetRenonced))
    as [[[r1 g1] db1]|] eqn:E1; [|vm_compute in E1; discriminate].
  destruct (setupSnailGenesisBlock db1 g1)
    as [[[r2 g2] db2]|] eqn:E2;
    [|vm_compute in E1; injection E1 as <- <- <-; vm_compute in E2; discriminate].
  exists g1, db1, g2, db2.
  assert (Hr1 : r1 = (Some MainnetChainConfig, 1014%N, None)).
  { vm_compute in E1. injection E1 as <- _ _. reflexivity. }
  assert (Hr2 : r2 = (Some MainnetChainConfig, 331%N, Some (GenesisMismatchError 330 331))).
  { vm_compute in E1. injection E1 as _ <- <-. vm_compute in E2.
    injection E2 as <- _ _. reflexivity. }
  subst r1 r2. split; [reflexivity|]. split; [exact E2|].
  eapply SetupGenesisBlock_returns; [reflexivity | exact E1 | exact E2].
Qed.

(** The fourteen keys of the main-net committee decode. *)
Lemma validKeys_DefaultGenesisBlock : validKeys DefaultGenesisBlock.
Proof.
  unfold validKeys, DefaultGenesisBlock. cbn [Committee fmap list_fmap].
  repeat (constructor; [eexists; vm_compute; reflexivity|]). constructor.
Defined.

(** C8 on the main-net specification. *)
Lemma ToFastBlock_committee_witness :
  exists g' block db',
    ToFastBlock DefaultGenesisBlock None = Done (g', block, db') /\
    Forall normalized (b_infos block) /\
    Committee g' = b_infos block.
Proof.
  destruct (ToFastBlock_committee DefaultGenesisBlock) as (Htotal & Hshape & _).
  destruct (Htotal None validKeys_DefaultGenesisBlock) as (g' & block & db' & Hdone).
  exists g', block, db'. split; [exact Hdone|].
  destruct (Hshape None g' block db' Hdone) as (Hnorm & _ & Hsame).
  split; assumption.
Defined.

(** C9 on the main-net specification. *)
Lemma ToSnailBlock_single_fruit_witness :
  exists g' block db' g1 fastBlock fruit,
    ToSnailBlock DefaultGenesisBlock None = Done (g', block, db') /\
    ToFastBlock DefaultGenesisBlock None = Done (g1, fastBlock, db') /\
    Fruits block = [fruit] /\
    FastNumber fruit = Some (fh_Number (b_header fastBlock)) /\
    FastHash fruit = BlockHash fastBlock /\
    Signs fruit = [].
Proof.
  destruct (ToSnailBlock_single_fruit DefaultGenesisBlock None) as (Htotal & Hshape).
  destruct (Htotal validKeys_DefaultGenesisBlock) as (g' & block & db' & Hdone);
    [vm_compute; discriminate|].
  destruct (Hshape g' block db' Hdone) as (g1 & fastBlock & fruit & Hfast & Hrest).
  exists g', block, db', g1, fastBlock, fruit. split; [exact Hdone|]. split; [exact Hfast|].
  exact Hrest.
Defined.

(** C3 on the main-net store and the test-net specification without
    configuration. *)
Lemma SetupGenesisBlock_no_config_witness :
  SetupGenesisBlock mainnetStore (Some testnetNoConfig)
  = Done ((Some AllMinervaProtocolChanges, zeroHash, zeroHash, Some errGenesisNoConfig),
          Some testnetNoConfig, mainnetStore).
Proof.
  destruct (SetupGenesisBlock_no_config mainnetStore testnetNoConfig) as [Hsetup _];
    [reflexivity | exact Hsetup].
Defined.

(** C2, as amended, on the main-net store and the test-net
    specification. *)
Lemma setupGenesisBlock_mismatch_witness :
  (exists g',
     setupFastGenesisBlock mainnetStore (Some DefaultTestnetGenesisBlock)
     = Done ((Some TestnetChainConfig, 1537892207%N,
              Some (GenesisMismatchError 1014 1537892207)), Some g', mainnetStore)) /\
  (exists g',
     setupSnailGenesisBlock mainnetStore (Some DefaultTestnetGenesisBlock)
     = Done ((Some TestnetChainConfig, 928%N, Some (GenesisMismatchError 330 928)),
             Some g', mainnetStore)).
Proof.
  destruct (setupGenesisBlock_mismatch mainnetStore DefaultTestnetGenesisBlock)
    as [Hfast Hsnail]; [reflexivity|].
  assert (Hstored : ReadCanonicalHash mainnetStore 0 = 1014%N) by (vm_compute; reflexivity).
  assert (Hsnailstored : SnailReadCanonicalHash mainnetStore 0 = 330%N)
    by (vm_compute; reflexivity).
  split.
  - destruct (ToFastBlock DefaultTestnetGenesisBlock None) as [[[g' block] mem]|] eqn:E;
      [|vm_compute in E; discriminate].
    assert (Hhash : BlockHash block = 1537892207%N).
    { vm_compute in E. injection E as _ <- _. reflexivity. }
    exists g'. rewrite (Hfast g' block mem); rewrite ?Hstored, ?Hhash;
      [reflexivity | discriminate | reflexivity | discriminate].
  - destruct (ToSnailBlock DefaultTestnetGenesisBlock None) as [[[g' block] mem]|] eqn:E;
      [|vm_compute in E; discriminate].
    assert (Hhash : SnailBlockHash block = 928%N).
    { vm_compute in E. injection E as _ <- _. reflexivity. }
    exists g'. rewrite (Hsnail g' block mem); rewrite ?Hsnailstored, ?Hhash;
      [reflexivity | discriminate | reflexivity | discriminate].
Defined.

(** C10 on a specification whose committee member carries two bytes. *)
Lemma ToFastBlock_invalid_key_panics_witness :
  ToFastBlock badKeyGenesis None = Panicked /\
  CommitFast badKeyGenesis NewMemDatabase = Panicked /\
  SetupGenesisBlock NewMemDatabase (Some badKeyGenesis) = Panicked.
Proof.
  destruct (ToFastBlock_invalid_key_panics badKeyGenesis) as (Hfast & Hcommit & Hsetup).
  { left. reflexivity. }
  split; [apply Hfast|]. split; [apply Hcommit|].
  apply Hsetup; reflexivity.
Defined.

End genesis_props.

(** * Further properties of the block validator *)

Module validator_more.

Import snailchain validator_props.

Section Acceptance.

Context `{TypesPkg} `{FruitParams}.

Implicit Types (v : BlockValidator) (block fruit : SnailBlock).

(** [ValidateFruit] accepts a fruit exactly when the fruit anchors a
    fast block that the fast chain holds and that is not beyond its
    current header, is not older than this block, carries the digest of
    its signatures, and passes the three checks of the engine. *)
Theorem ValidateFruit_accepts v fruit (block : option SnailBlock) canonical :
  ValidateFruit v fruit block canonical = Ok tt <-> fruitAccepted v block canonical fruit.
Proof.
  unfold ValidateFruit, fruitAccepted, nilOrBefore. split.
  - destruct (FastNumber fruit) as [n|]; [|discriminate].
    destruct (Z.gtb_spec n (fh_Number (CurrentHeader (fastchain v)))); [discriminate|].
    destruct (GetHeader _ _ _) as [fb|] eqn:Efb; [|discriminate].
    destruct (Time fruit) as [ft|]; [|discriminate].
    destruct (fh_Time fb) as [bt|] eqn:Ebt; [|discriminate].
    destruct (Z.ltb_spec ft bt); [discriminate|].
    destruct (N.eqb_spec (sh_SignHash (sb_header fruit)) (CalcSignHash (Signs fruit)));
      [|discriminate].
    simpl. unfold_res.
    destruct (VerifyFreshness _ _ _ _ _) eqn:E1; [discriminate|].
    destruct (VerifySnailHeader _ _ _ _ _ _) eqn:E2; [discriminate|].
    destruct (VerifySigns _ _ _ _) eqn:E3; [discriminate|].
    intros _. exists n, fb, ft, bt. repeat split; auto; lia.
  - intros (n & fb & ft & bt & -> & Hle & -> & -> & -> & Hbt & Hsign & E1 & E2 & E3).
    destruct (Z.gtb_spec n (fh_Number (CurrentHeader (fastchain v)))); [lia|].
    destruct (Z.ltb_spec ft bt); [lia|].
    rewrite Hsign, N.eqb_refl. simpl. rewrite E1, E2, E3. reflexivity.
Qed.

Lemma anchor_shift (temp i : Z) :
  ((temp + 1) mod 2 ^ 64 + i + 1) mod 2 ^ 64 = (temp + (i + 1) + 1) mod 2 ^ 64.
Proof.
  replace ((temp + 1) mod 2 ^ 64 + i + 1) with ((temp + 1) mod 2 ^ 64 + (i + 1)) by lia.
  rewrite Z.add_mod_idemp_l by (cbv; discriminate). f_equal. lia.
Qed.

(** The loop accepts the fruits exactly when each of them anchors the
    fast number that its position calls for and is accepted. *)
Lemma validateFruits_accepts v block fruits : forall temp,
  0 <= temp < 2 ^ 64 ->
  validateFruits v block temp fruits = Ok tt <->
  (forall (i : nat) fruit,
     fruits !! i = Some fruit ->
     (exists n, FastNumber fruit = Some n /\
                Uint64 n = (temp + Z.of_nat i + 1) mod 2 ^ 64) /\
     fruitAccepted v (Some block) false fruit).
Proof.
  induction fruits as [|fruit rest IH]; intros temp Ht; simpl.
  - split; [intros _ i f Hi; discriminate | reflexivity].
  - unfold fastNumberU64. split.
    + destruct (FastNumber fruit) as [n|] eqn:En; [|discriminate]. unfold_res.
      rewrite (sub64_one _ _ (Uint64_range n) Ht).
      destruct (Z.eqb_spec (Uint64 n) ((temp + 1) mod 2 ^ 64)) as [Hseq|]; [|discriminate].
      simpl.
      destruct (ValidateFruit v fruit (Some block) false) as [[]| |] eqn:Ev; try discriminate.
      intros Hloop. pose proof (proj1 (IH (Uint64 n) (Uint64_range n)) Hloop) as Hrest.
      intros [|i] f Hi; simpl in Hi.
      * injection Hi as <-. split; [|apply ValidateFruit_accepts, Ev].
        exists n. split; [exact En|]. rewrite Hseq. f_equal. lia.
      * destruct (Hrest i f Hi) as [(m & Hm & Hpos) Hacc]. split; [|exact Hacc].
        exists m. split; [exact Hm|]. rewrite Hpos, Hseq, anchor_shift. f_equal. lia.
    + intros Hall.
      destruct (Hall 0%nat fruit eq_refl) as [(n & En & Hpos) Hacc].
      rewrite En. unfold_res. rewrite (sub64_one _ _ (Uint64_range n) Ht).
      replace (temp + Z.of_nat 0 + 1) with (temp + 1) in Hpos by lia.
      destruct (Z.eqb_spec (Uint64 n) ((temp + 1) mod 2 ^ 64)); [|contradiction]. simpl.
      rewrite (proj2 (ValidateFruit_accepts v fruit (Some block) false) Hacc).
      apply (proj2 (IH (Uint64 n) (Uint64_range n))). intros i f Hi.
      destruct (Hall (S i) f Hi) as [(m & Hm & Hm') Hacc']. split; [|exact Hacc'].
      exists m. split; [exact Hm|]. rewrite Hm', Hpos, anchor_shift. f_equal. lia.
Qed.

Lemma checkKnown_Ok v block :
  checkKnown v block = Ok tt <->
  IsCanonicalBlock (bc v) (SnailBlockHash block) (NumberU64 block) = false.
Proof. unfold checkKnown. destruct (IsCanonicalBlock _ _ _); split; congruence. Qed.

Lemma checkAncestor_Ok v block :
  checkAncestor v block = Ok tt <->
  IsCanonicalBlock (bc v) (ParentHash block) (sub64 (NumberU64 block) 1) = true.
Proof.
  unfold checkAncestor. destruct (IsCanonicalBlock _ _ _); simpl; [split; congruence|].
  destruct (negb _); split; congruence.
Qed.

Lemma checkFruitCount_Ok (count : Z) :
  checkFruitCount count = Ok tt <->
  count <> 0 /\ MinimumFruits <= count <= MaximumFruits.
Proof.
  unfold checkFruitCount.
  destruct (Z.eqb_spec count 0); [split; [discriminate | tauto]|].
  destruct (Z.gtb_spec count MaximumFruits); simpl; [split; [discriminate | lia]|].
  destruct (Z.ltb_spec count MinimumFruits); [split; [discriminate | lia]|].
  split; [lia | reflexivity].
Qed.

Lemma parentAnchor_Ok v block temp :
  parentAnchor v block = Ok temp <->
  exists preBlock,
    GetBlock (bc v) (ParentHash block) (sub64 (NumberU64 block) 1) = Some preBlock /\
    anchorOf preBlock = Some temp.
Proof.
  unfold parentAnchor, anchorOf, fastNumberU64. split.
  - destruct (GetBlock _ _ _) as [preBlock|]; [|discriminate].
    intros Hok. exists preBlock. split; [reflexivity|].
    destruct (Number preBlock >? 0); [|congruence].
    destruct (last (Fruits preBlock)) as [f|]; [|discriminate]. simpl.
    destruct (FastNumber f); [|discriminate]. simpl. congruence.
  - intros (preBlock & -> & Hanchor).
    destruct (Number preBlock >? 0); [|congruence].
    destruct (last (Fruits preBlock)) as [f|]; [|discriminate]. simpl in Hanchor.
    destruct (FastNumber f); [|discriminate]. simpl in Hanchor. congruence.
Qed.

Lemma anchoredRange_Ok v fruits minfb maxfb :
  anchoredRange v fruits = Ok (minfb, maxfb) <->
  exists firstFruit lastFruit nmin nmax,
    head fruits = Some firstFruit /\ last fruits = Some lastFruit /\
    FastNumber firstFruit = Some nmin /\ FastNumber lastFruit = Some nmax /\
    GetHeader (fastchain v) (FastHash firstFruit) (Uint64 nmin) = Some minfb /\
    GetHeader (fastchain v) (FastHash lastFruit) (Uint64 nmax) = Some maxfb.
Proof.
  unfold anchoredRange, fastNumberU64. split.
  - destruct (last fruits) as [lastFruit|]; [|discriminate].
    destruct (head fruits) as [firstFruit|]; [|discriminate].
    destruct (FastNumber lastFruit) as [nmax|] eqn:Emax; [|discriminate].
    destruct (FastNumber firstFruit) as [nmin|] eqn:Emin; [|discriminate]. unfold_res.
    destruct (GetHeader _ (FastHash firstFruit) _) as [fb1|] eqn:E1; [|discriminate].
    destruct (GetHeader _ (FastHash lastFruit) _) as [fb2|] eqn:E2; [|discriminate].
    intros [= <- <-]. exists firstFruit, lastFruit, nmin, nmax. repeat split; auto.
  - intros (firstFruit & lastFruit & nmin & nmax & -> & -> & -> & -> & E1 & E2).
    unfold_res. rewrite E1, E2. reflexivity.
Qed.

Lemma checkBlockTime_Ok block fruits :
  checkBlockTime block fruits = Ok tt <->
  exists lastFruit ft bt,
    last fruits = Some lastFruit /\ Time lastFruit = Some ft /\ Time block = Some bt /\
    ft <= bt.
Proof.
  unfold checkBlockTime. split.
  - destruct (last fruits) as [lastFruit|]; [|discriminate].
    destruct (Time lastFruit) as [ft|] eqn:Eft; [|discriminate].
    destruct (Time block) as [bt|] eqn:Ebt; [|discriminate].
    destruct (Z.ltb_spec bt ft); [discriminate|].
    intros _. exists lastFruit, ft, bt. repeat split; auto.
  - intros (lastFruit & ft & bt & -> & -> & -> & Hle).
    destruct (Z.ltb_spec bt ft); [lia | reflexivity].
Qed.

Lemma checkTimeGap_Ok (minfb maxfb : Header) :
  checkTimeGap minfb maxfb = Ok tt <->
  exists tmin tmax,
    fh_Time minfb = Some tmin /\ fh_Time maxfb = Some tmax /\ MinTimeGap <= tmax - tmin.
Proof.
  unfold checkTimeGap, bigSub. split.
  - destruct (fh_Time maxfb) as [tmax|]; [|discriminate].
    destruct (fh_Time minfb) as [tmin|]; [|discriminate]. unfold_res.
    destruct (Z.ltb_spec (tmax - tmin) MinTimeGap); [discriminate|].
    intros _. exists tmin, tmax. repeat split; auto.
  - intros (tmin & tmax & -> & -> & Hgap). unfold_res.
    destruct (Z.ltb_spec (tmax - tmin) MinTimeGap); [lia | reflexivity].
Qed.

Lemma checkFruitsHash_Ok block :
  checkFruitsHash block = Ok tt <->
  DeriveSha (Fruits block) = sh_FruitsHash (sb_header block).
Proof.
  unfold checkFruitsHash.
  destruct (N.eqb_spec (DeriveSha (Fruits block)) (sh_FruitsHash (sb_header block)));
    simpl; split; congruence.
Qed.

(** [ValidateBody] accepts a block exactly when the block is new, links
    to a canonical parent, carries an admissible number of fruits that
    anchor, one by one, the fast numbers following the anchor of the
    parent and are each accepted by [ValidateFruit], is not older than
    its last fruit, spans the minimum time between its first and last
    anchored fast block, and declares the root of its fruits. *)
Theorem ValidateBody_accepts v block :
  ValidateBody v block = Ok tt <-> bodyAccepted v block.
Proof.
  unfold bodyAccepted. split.
  - unfold ValidateBody. unfold_res.
    destruct (checkKnown v block) as [[]| |] eqn:E1; try discriminate.
    destruct (checkAncestor v block) as [[]| |] eqn:E2; try discriminate.
    destruct (checkFruitCount _) as [[]| |] eqn:E3; try discriminate.
    unfold validateLinked. unfold_res.
    destruct (parentAnchor v block) as [temp| |] eqn:E4; try discriminate.
    destruct (anchoredRange v (Fruits block)) as [[minfb maxfb]| |] eqn:E5; try discriminate.
    destruct (checkBlockTime block (Fruits block)) as [[]| |] eqn:E6; try discriminate.
    destruct (checkTimeGap minfb maxfb) as [[]| |] eqn:E7; try discriminate.
    unfold validateSequence. unfold_res.
    destruct (validateFruits v block temp (Fruits block)) as [[]| |] eqn:E8; try discriminate.
    intros E9.
    apply checkKnown_Ok in E1. apply checkAncestor_Ok in E2.
    apply checkFruitCount_Ok in E3 as [Hnz Hrange].
    pose proof (parentAnchor_range _ _ _ E4) as Ht.
    apply parentAnchor_Ok in E4 as (preBlock & Hpre & Hanchor).
    apply anchoredRange_Ok in E5
      as (firstFruit & lastFruit & nmin & nmax & Hhead & Hlast & Hnmin & Hnmax & Hmin & Hmax).
    apply checkBlockTime_Ok in E6 as (lastFruit' & ft & bt & Hlast' & Hft & Hbt & Hle).
    rewrite Hlast in Hlast'. injection Hlast' as <-.
    apply checkTimeGap_Ok in E7 as (tmin & tmax & Htmin & Htmax & Hgap).
    apply checkFruitsHash_Ok in E9.
    repeat split; try assumption; try apply Hrange.
    exists preBlock, temp, firstFruit, lastFruit, nmin, nmax, minfb, maxfb, ft, bt, tmin, tmax.
    repeat split; try assumption;
      apply (proj1 (validateFruits_accepts v block (Fruits block) temp Ht) E8 i fruit);
      assumption.
  - intros (E1 & E2 & Hnz & Hrange & preBlock & temp & firstFruit & lastFruit & nmin & nmax
            & minfb & maxfb & ft & bt & tmin & tmax & Hpre & Hanchor & Hhead & Hlast & Hnmin
            & Hnmax & Hmin & Hmax & Hft & Hbt & Hle & Htmin & Htmax & Hgap & Hfruits & Hroot).
    assert (E4 : parentAnchor v block = Ok temp)
      by (apply parentAnchor_Ok; exists preBlock; auto).
    pose proof (parentAnchor_range _ _ _ E4) as Ht.
    unfold ValidateBody.
    rewrite (proj2 (checkKnown_Ok v block) E1), (proj2 (checkAncestor_Ok v block) E2).
    rewrite (proj2 (checkFruitCount_Ok _) (conj Hnz Hrange)).
    unfold validateLinked. unfold_res. rewrite E4.
    rewrite (proj2 (anchoredRange_Ok v (Fruits block) minfb maxfb))
      by (exists firstFruit, lastFruit, nmin, nmax; auto 10).
    rewrite (proj2 (checkBlockTime_Ok block (Fruits block)))
      by (exists lastFruit, ft, bt; auto).
    rewrite (proj2 (checkTimeGap_Ok minfb maxfb)) by (exists tmin, tmax; auto).
    unfold validateSequence. unfold_res.
    rewrite (proj2 (validateFruits_accepts v block (Fruits block) temp Ht) Hfruits).
    apply checkFruitsHash_Ok, Hroot.
Qed.

Lemma ValidateFruit_no_panic v fruit (block : option SnailBlock) canonical :
  is_Some (FastNumber fruit) -> ValidateFruit v fruit block canonical <> Panic.
Proof.
  intros [n Hn]. unfold ValidateFruit. rewrite Hn.
  destruct (n >? _); [discriminate|].
  destruct (GetHeader _ _ _); [|discriminate].
  destruct (nilOrBefore _ _); [discriminate|].
  destruct (negb _); [discriminate|]. unfold_res.
  destruct (VerifyFreshness _ _ _ _ _); [discriminate|].
  destruct (VerifySnailHeader _ _ _ _ _ _); [discriminate|].
  destruct (VerifySigns _ _ _ _); discriminate.
Qed.

Lemma validateFruits_no_panic v block fruits : forall temp,
  Forall (fun fruit => is_Some (FastNumber fruit)) fruits ->
  validateFruits v block temp fruits <> Panic.
Proof.
  induction fruits as [|fruit rest IH]; intros temp Hall; simpl; [discriminate|].
  apply Forall_cons in Hall as [[n Hn] Hrest].
  unfold fastNumberU64. rewrite Hn. unfold_res.
  destruct (negb _); [discriminate|].
  pose proof (ValidateFruit_no_panic v fruit (Some block) false (ex_intro _ n Hn)) as Hv.
  destruct (ValidateFruit v fruit (Some block) false) as [[]| |];
    [apply IH, Hrest | discriminate | contradiction].
Qed.

(** [ValidateBody] returns, with or without an error, on a block whose
    fruits carry a fast number, when a parent above the genesis block
    has a last fruit with a fast number and the fast headers carry a
    time: it then dereferences nothing that is nil and indexes no empty
    list. *)
Theorem ValidateBody_no_panic v block :
  wellFormed v block -> ValidateBody v block <> Panic.
Proof.
  intros (Hfruits & Hparent & Htimes). unfold ValidateBody. unfold_res.
  unfold checkKnown. destruct (IsCanonicalBlock _ _ _); [discriminate|].
  unfold checkAncestor. destruct (IsCanonicalBlock _ _ _); simpl;
    [|destruct (negb _); discriminate].
  destruct (checkFruitCount _) as [[]| |] eqn:Ecount;
    [|discriminate|exfalso; revert Ecount; unfold checkFruitCount;
      destruct (_ =? _); [discriminate|]; destruct (_ || _); discriminate].
  apply checkFruitCount_Ok in Ecount as [Hnz _].
  unfold validateLinked, parentAnchor. unfold_res.
  destruct (GetBlock _ _ _) as [preBlock|] eqn:Epre; [|discriminate].
  assert (Hanchor : exists temp,
            (if Number preBlock >? 0
             then match last (Fruits preBlock) with
                  | Some f => fastNumberU64 f
                  | None => Panic
                  end
             else Ok 0) = Ok temp).
  { destruct (Z.gtb_spec (Number preBlock) 0) as [Hpos|]; [|eauto].
    destruct (Hparent preBlock eq_refl ltac:(lia)) as (f & -> & n & Hn).
    unfold fastNumberU64. rewrite Hn. eauto. }
  destruct Hanchor as [temp ->].
  destruct (Fruits block) as [|first rest] eqn:Efruits; [simpl in Hnz; lia|].
  rewrite <- Efruits in *.
  assert (Hlast : exists lastFruit, last (Fruits block) = Some lastFruit /\
                                    is_Some (FastNumber lastFruit)).
  { destruct (last (Fruits block)) as [l|] eqn:El.
    - exists l. split; [reflexivity|].
      apply last_Some in El as [pre El]. rewrite El in Hfruits.
      apply Forall_app in Hfruits as [_ Hl]. apply Forall_cons in Hl as [Hl _]. exact Hl.
    - apply last_None in El. rewrite El in Efruits. discriminate. }
  destruct Hlast as (lastFruit & Hlast & nmax & Hnmax).
  assert (Hfirst : head (Fruits block) = Some first /\ is_Some (FastNumber first)).
  { rewrite Efruits. split; [reflexivity|]. rewrite Efruits in Hfruits.
    apply Forall_cons in Hfruits as [Hf _]. exact Hf. }
  destruct Hfirst as (Hhead & nmin & Hnmin).
  unfold anchoredRange. rewrite Hlast, Hhead. unfold fastNumberU64 at 1 2.
  rewrite Hnmax, Hnmin. unfold_res.
  destruct (GetHeader _ (FastHash first) _) as [minfb|] eqn:Emin; [|discriminate].
  destruct (GetHeader _ (FastHash lastFruit) _) as [maxfb|] eqn:Emax; [|discriminate].
  unfold checkBlockTime. rewrite Hlast.
  destruct (Time lastFruit); [|discriminate].
  destruct (Time block); [|discriminate].
  destruct (_ <? _); [discriminate|].
  destruct (Htimes _ _ _ Emin) as [tmin Htmin]. destruct (Htimes _ _ _ Emax) as [tmax Htmax].
  unfold checkTimeGap, bigSub. rewrite Htmin, Htmax. unfold_res.
  destruct (_ <? _); [discriminate|].
  unfold validateSequence. unfold_res.
  pose proof (validateFruits_no_panic v block (Fruits block) temp Hfruits) as Hloop.
  destruct (validateFruits v block temp (Fruits block)) as [[]| |];
    [|discriminate|contradiction].
  unfold checkFruitsHash. destruct (negb _); discriminate.
Qed.

(** When the parent lies above the genesis block and carries no fruit,
    [ValidateBody] panics on a candidate that passes the first three
    checks: it indexes the last element of an empty list. *)
Theorem ValidateBody_barren_parent_panics v block preBlock :
  checkKnown v block = Ok tt ->
  checkAncestor v block = Ok tt ->
  checkFruitCount (Z.of_nat (length (Fruits block))) = Ok tt ->
  GetBlock (bc v) (ParentHash block) (sub64 (NumberU64 block) 1) = Some preBlock ->
  Number preBlock > 0 ->
  Fruits preBlock = [] ->
  ValidateBody v block = Panic.
Proof.
  intros E1 E2 E3 Hpre Hpos Hnone.
  rewrite ValidateBody_linked by assumption.
  unfold validateLinked, parentAnchor. rewrite Hpre, Hnone.
  destruct (Z.gtb_spec (Number preBlock) 0); [reflexivity | lia].
Qed.

(** When every check before the last passes and the root of the fruits
    is not the one that the header declares, [ValidateBody] fails with
    the error that carries the two roots, the recomputed one first. *)
Theorem ValidateBody_fruits_hash_mismatch v block temp minfb maxfb :
  checkKnown v block = Ok tt ->
  checkAncestor v block = Ok tt ->
  checkFruitCount (Z.of_nat (length (Fruits block))) = Ok tt ->
  parentAnchor v block = Ok temp ->
  anchoredRange v (Fruits block) = Ok (minfb, maxfb) ->
  checkBlockTime block (Fruits block) = Ok tt ->
  checkTimeGap minfb maxfb = Ok tt ->
  validateFruits v block temp (Fruits block) = Ok tt ->
  DeriveSha (Fruits block) <> sh_FruitsHash (sb_header block) ->
  ValidateBody v block
  = Err (ErrFruitsHash (DeriveSha (Fruits block)) (sh_FruitsHash (sb_header block))).
Proof.
  intros E1 E2 E3 E4 E5 E6 E7 E8 Hneq.
  rewrite (ValidateBody_sequence v block temp minfb maxfb) by assumption.
  unfold validateSequence. rewrite E8. unfold_res. unfold checkFruitsHash.
  destruct (N.eqb_spec (DeriveSha (Fruits block)) (sh_FruitsHash (sb_header block)));
    [contradiction | reflexivity].
Qed.

(** An accepted block hands on, as the anchor for its successor, the
    anchor of its parent advanced by the number of its fruits, in 64-bit
    arithmetic. *)
Theorem ValidateBody_anchor_advances v block temp :
  ValidateBody v block = Ok tt ->
  parentAnchor v block = Ok temp ->
  Number block > 0 ->
  anchorOf block = Some ((temp + Z.of_nat (length (Fruits block))) mod 2 ^ 64).
Proof.
  intros Hok Htemp Hpos.
  apply ValidateBody_accepts in Hok.
  destruct Hok as (_ & _ & Hnz & _ & preBlock & temp' & firstFruit & lastFruit & nmin & nmax
                   & minfb & maxfb & ft & bt & tmin & tmax & Hpre & Hanchor & _ & Hlast & _
                   & _ & _ & _ & _ & _ & _ & _ & _ & _ & Hfruits & _).
  apply parentAnchor_Ok in Htemp as (preBlock' & Hpre' & Hanchor').
  rewrite Hpre in Hpre'. injection Hpre' as <-.
  rewrite Hanchor in Hanchor'. injection Hanchor' as ->.
  unfold anchorOf. destruct (Z.gtb_spec (Number block) 0); [|lia].
  rewrite Hlast. simpl.
  rewrite last_lookup in Hlast.
  destruct (Hfruits _ _ Hlast) as [(n & -> & Hn) _]. simpl. rewrite Hn.
  do 2 f_equal. destruct (Fruits block); simpl in *; lia.
Qed.

End Acceptance.

Import sample.

(** The sample candidate is well formed, and so validated without
    panic. *)
Lemma ValidateBody_no_panic_witness :
  ValidateBody (validator 1000 steady) candidate <> Panic.
Proof.
  apply ValidateBody_no_panic. split; [|split].
  - apply Forall_fmap, Forall_true. intros n. eexists. reflexivity.
  - intros preBlock Hpre _. vm_compute in Hpre. injection Hpre as <-.
    eexists. split; [vm_compute; reflexivity | eexists; reflexivity].
  - intros h n fb. simpl. destruct (_ && _); [|discriminate].
    intros [= <-]. eexists. reflexivity.
Defined.

(** A candidate over a parent at height 5 that carries no fruit. *)
Lemma ValidateBody_barren_parent_panics_witness :
  ValidateBody barrenValidator candidate = Panic.
Proof.
  apply (ValidateBody_barren_parent_panics barrenValidator candidate barrenParent);
    try reflexivity.
Defined.

(** The sample candidate with the fruits root 1 in its header, where
    the root of its sixty fruits is 7060. *)
Lemma ValidateBody_fruits_hash_mismatch_witness :
  ValidateBody (validator 1000 steady) misrootedCandidate = Err (ErrFruitsHash 7060 1).
Proof.
  etransitivity.
  - apply (ValidateBody_fruits_hash_mismatch (validator 1000 steady) misrootedCandidate 100
             (fastHeader 101 1010) (fastHeader 160 1600));
      try reflexivity.
    vm_compute. discriminate.
  - vm_compute. reflexivity.
Defined.

(** The sample candidate anchors 101 to 160 after the anchor 100. *)
Lemma ValidateBody_anchor_advances_witness :
  anchorOf candidate = Some 160.
Proof.
  etransitivity.
  - apply (ValidateBody_anchor_advances (validator 1000 steady) candidate 100);
      [vm_compute; reflexivity | reflexivity | reflexivity].
  - vm_compute. reflexivity.
Defined.

End validator_more.

(** * Properties of [storageJSON] *)

Module storage_props.

Import core.

Ltac unfold_exec := unfold mbind, exec_bind, mret, exec_ret in *.

(** Induction over a list two elements at a time. *)
Lemma pair_induction {A : Type} (P : list A -> Prop) :
  P [] -> (forall x, P [x]) -> (forall x y l, P l -> P (x :: y :: l)) ->
  forall l, P l.
Proof.
  intros Hnil Hone Hstep.
  assert (Hboth : forall l, P l /\ forall x, P (x :: l)).
  { induction l as [|y l [IH1 IH2]]; split; auto. }
  intros l. apply Hboth.
Qed.

Lemma fromHexChar_lt c a : fromHexChar c = Some a -> (a < 16)%N.
Proof.
  unfold fromHexChar, hexDigit.
  repeat match goal with
         | |- context [(?x <=? ?y)%N] => destruct (N.leb_spec x y)
         end; simpl; intros [= <-]; lia.
Qed.

Lemma joinNibbles_to_N a b :
  (a < 16)%N -> (b < 16)%N -> Byte.to_N (joinNibbles a b) = (a * 16 + b)%N.
Proof.
  intros Ha Hb. unfold joinNibbles.
  destruct (Byte.of_N (a * 16 + b)) as [x|] eqn:E.
  - apply Byte.to_of_N, E.
  - apply Byte.of_N_None_iff in E. lia.
Qed.

(** Each byte is recovered from its two digits. *)
Lemma byte_digits v :
  fromHexChar (hexChar (Byte.to_N v / 16)) = Some (Byte.to_N v / 16)%N /\
  fromHexChar (hexChar (Byte.to_N v mod 16)) = Some (Byte.to_N v mod 16)%N /\
  joinNibbles (Byte.to_N v / 16) (Byte.to_N v mod 16) = v.
Proof. destruct v; vm_compute; auto. Qed.

(** Decoding an encoding writes the encoded bytes at the head of the
    destination. *)
Lemma hexDecode_hexEncode bs : forall dst,
  (length bs <= length dst)%nat ->
  hexDecode dst (hexEncode bs) = Done (bs ++ drop (length bs) dst, None).
Proof.
  induction bs as [|v bs IH]; intros dst Hlen; [reflexivity|].
  destruct dst as [|d dst]; [simpl in Hlen; lia|].
  destruct (byte_digits v) as (Hhi & Hlo & Hjoin).
  cbn [hexEncode flat_map app hexDecode]. rewrite Hhi, Hlo.
  fold (hexEncode bs). rewrite IH by (simpl in Hlen; lia).
  unfold_exec. rewrite Hjoin. reflexivity.
Qed.

Lemma length_hexEncode bs : length (hexEncode bs) = (2 * length bs)%nat.
Proof. induction bs as [|v bs IH]; simpl; [reflexivity | rewrite IH; lia]. Qed.

(** Unmarshalling what [MarshalText] gives restores the value, whatever
    the receiver held, and prints nothing. *)
Theorem UnmarshalText_MarshalText h h0 :
  length h = 32%nat -> length h0 = 32%nat ->
  UnmarshalText h0 (MarshalText h)
  = Done {| um_value := h; um_console := []; um_err := None |}.
Proof.
  intros Hh Hh0. unfold UnmarshalText, MarshalText.
  change (TrimPrefix ([x30; x78] ++ hexEncode h) [x30; x78]) with (hexEncode h).
  rewrite length_hexEncode, Hh, Hh0. simpl. rewrite drop_0.
  rewrite hexDecode_hexEncode by lia. unfold_exec.
  rewrite Hh, drop_ge by lia. rewrite app_nil_r. reflexivity.
Qed.

(** [hex.Decode] returns when the destination has room for the pairs of
    digits; it keeps the length of the destination and the bytes past
    those pairs, and succeeds exactly on an even number of digits. *)
Lemma hexDecode_spec src : forall dst,
  (length src / 2 <= length dst)%nat ->
  exists written err,
    hexDecode dst src = Done (written, err) /\
    length written = length dst /\
    (err = None <-> Nat.Even (length src) /\ allHex src) /\
    (err = None ->
     drop (length src / 2) written = drop (length src / 2) dst /\
     bigEndian (take (length src / 2) written) = hexValue src).
Proof.
  unfold bigEndian, hexValue.
  enough (Hgen : forall dst,
    (length src / 2 <= length dst)%nat ->
    exists written err,
      hexDecode dst src = Done (written, err) /\
      length written = length dst /\
      (err = None <-> Nat.Even (length src) /\ allHex src) /\
      (err = None ->
       drop (length src / 2) written = drop (length src / 2) dst /\
       forall acc,
         foldl (fun acc b => acc * 256 + Byte.to_N b)%N acc (take (length src / 2) written)
         = foldl (fun acc c => acc * 16 + default 0 (fromHexChar c))%N acc src)).
  { intros dst Hlen. destruct (Hgen dst Hlen) as (w & e & H1 & H2 & H3 & H4).
    exists w, e. split; [exact H1|]. split; [exact H2|]. split; [exact H3|].
    intros He. destruct (H4 He) as [Hd Hf]. split; [exact Hd | apply Hf]. }
  induction src as [|p|p q rest IH] using pair_induction; intros dst Hlen.
  - exists dst, None. simpl. repeat split; auto.
    + exists 0%nat. reflexivity.
    + constructor.
  - simpl. destruct (fromHexChar p) as [a|]; eexists _, _;
      (split; [reflexivity|]); (split; [reflexivity|]);
      (split; [|discriminate]); (split; [discriminate|]);
      intros [[k Hk] _]; simpl in Hk; lia.
  - assert (Hdiv : (length (p :: q :: rest) / 2 = S (length rest / 2))%nat).
    { cbn [length]. replace (S (S (length rest))) with (length rest + 1 * 2)%nat by lia.
      rewrite Nat.div_add by lia. lia. }
    rewrite Hdiv in *. simpl hexDecode.
    destruct (fromHexChar p) as [a|] eqn:Ep.
    2:{ eexists _, _. split; [reflexivity|]. split; [reflexivity|].
        split; [|discriminate]. split; [discriminate|].
        intros [_ Hall]. apply Forall_cons in Hall as [[x Hx] _]. congruence. }
    destruct (fromHexChar q) as [b|] eqn:Eq.
    2:{ eexists _, _. split; [reflexivity|]. split; [reflexivity|].
        split; [|discriminate]. split; [discriminate|].
        intros [_ Hall]. apply Forall_cons in Hall as [_ Hall].
        apply Forall_cons in Hall as [[x Hx] _]. congruence. }
    destruct dst as [|d dst]; [cbn [length] in Hlen; lia|].
    destruct (IH dst) as (w & e & Hdec & Hlenw & Hiff & Hval); [cbn [length] in Hlen; lia|].
    rewrite Hdec. unfold_exec. exists (joinNibbles a b :: w), e.
    split; [reflexivity|]. split; [simpl; lia|]. split.
    + rewrite Hiff. split.
      * intros [[k Hk] Hall]. split.
        -- exists (S k). simpl. lia.
        -- repeat constructor; eauto.
      * intros [[k Hk] Hall]. split.
        -- exists (pred k). simpl in Hk. lia.
        -- apply Forall_cons in Hall as [_ Hall]. apply Forall_cons in Hall as [_ Hall].
           exact Hall.
    + intros He. destruct (Hval He) as [Hdrop Hfold]. split; [exact Hdrop|].
      intros acc. cbn [take foldl]. rewrite Hfold, Ep, Eq. simpl.
      rewrite (joinNibbles_to_N a b (fromHexChar_lt _ _ Ep) (fromHexChar_lt _ _ Eq)).
      f_equal. lia.
Qed.

Lemma half_le_32 (n : nat) : (n <= 64 -> n / 2 <= 32)%nat.
Proof. intros Hn. apply Nat.Div0.div_le_upper_bound. lia. Qed.

(** What [UnmarshalText] does on a receiver of 32 bytes, with [t] the
    text after the prefix and [k] its half length. *)
Lemma UnmarshalText_decodes h text :
  length h = 32%nat ->
  let t := TrimPrefix text [x30; x78] in
  (length t <= 64)%nat ->
  exists written err,
    hexDecode (drop (32 - length t / 2) h) t = Done (written, err) /\
    length written = (length t / 2)%nat /\
    (err = None <-> Nat.Even (length t) /\ allHex t) /\
    (err = None -> bigEndian written = hexValue t) /\
    UnmarshalText h text
    = Done {| um_value := take (32 - length t / 2) h ++ written;
              um_console := match err with Some e => [e] | None => [] end;
              um_err := match err with Some _ => Some (errInvalidHex t) | None => None end |}.
Proof.
  intros Hh t Hlen. pose proof (half_le_32 _ Hlen) as Hhalf.
  destruct (hexDecode_spec t (drop (32 - length t / 2) h))
    as (written & err & Hdec & Hlenw & Hiff & Hval).
  { rewrite length_drop. lia. }
  rewrite length_drop in Hlenw.
  exists written, err. split; [exact Hdec|]. split; [lia|]. split; [exact Hiff|]. split.
  - intros He. destruct (Hval He) as [_ Hbig]. rewrite take_ge in Hbig by lia. exact Hbig.
  - unfold UnmarshalText. fold t.
    destruct (Nat.ltb_spec 64 (length t)); [lia|].
    rewrite Hh. destruct (Nat.ltb_spec 32 (length t / 2)); [lia|].
    rewrite Hdec. unfold_exec. destruct err; reflexivity.
Qed.

(** On a receiver of 32 bytes [UnmarshalText] never panics and keeps
    the 32 bytes; it returns no error exactly when the text, after one
    leading [0x], is an even number of at most 64 hexadecimal digits. *)
Theorem UnmarshalText_accepts h text :
  length h = 32%nat ->
  let t := TrimPrefix text [x30; x78] in
  exists r,
    UnmarshalText h text = Done r /\
    length (um_value r) = 32%nat /\
    (um_err r = None <-> (length t <= 64)%nat /\ Nat.Even (length t) /\ allHex t).
Proof.
  intros Hh t. destruct (Nat.le_gt_cases (length t) 64) as [Hlen | Hlen].
  - destruct (UnmarshalText_decodes h text Hh Hlen)
      as (written & err & _ & Hlenw & Hiff & _ & ->).
    pose proof (half_le_32 _ Hlen) as Hhalf.
    eexists. split; [reflexivity|]. cbn [um_value um_err]. split.
    + rewrite length_app, length_take, Hh. subst t. lia.
    + destruct err as [e|].
      * split; [discriminate|]. intros (_ & Heven & Hall).
        discriminate (proj2 Hiff (conj Heven Hall)).
      * split; [|reflexivity]. intros _. split; [exact Hlen|]. apply Hiff. reflexivity.
  - unfold UnmarshalText. fold t. destruct (Nat.ltb_spec 64 (length t)); [|lia].
    eexists. split; [reflexivity|]. simpl. split; [exact Hh|].
    split; [discriminate | lia].
Qed.

Lemma bigEndian_zeros (k : nat) bs : bigEndian (replicate k x00 ++ bs) = bigEndian bs.
Proof.
  unfold bigEndian. rewrite foldl_app.
  replace (foldl (fun acc b => acc * 256 + Byte.to_N b)%N 0%N (replicate k x00)) with 0%N;
    [reflexivity|].
  induction k as [|k IH]; [reflexivity|]. simpl. exact IH.
Qed.

(** An accepted text of [2k] digits is written to the last [k] bytes,
    which then denote the number that the digits denote; the bytes
    before them are left as they were, so that a receiver of zeros
    denotes this number as a whole: the value is padded on the left. *)
Theorem UnmarshalText_value h text :
  length h = 32%nat ->
  let t := TrimPrefix text [x30; x78] in
  let offset := (32 - length t / 2)%nat in
  (length t <= 64)%nat -> Nat.Even (length t) -> allHex t ->
  exists r,
    UnmarshalText h text = Done r /\
    um_err r = None /\ um_console r = [] /\
    take offset (um_value r) = take offset h /\
    bigEndian (drop offset (um_value r)) = hexValue t /\
    (h = replicate 32 x00 -> bigEndian (um_value r) = hexValue t).
Proof.
  intros Hh t offset Hlen Heven Hall.
  destruct (UnmarshalText_decodes h text Hh Hlen)
    as (written & err & _ & Hlenw & Hiff & Hval & ->).
  pose proof (half_le_32 _ Hlen) as Hhalf. fold t in Hhalf, Hlenw, Hiff, Hval |- *.
  assert (He : err = None) by (apply Hiff; split; assumption). subst err.
  assert (Hoff : length (take offset h) = offset) by (rewrite length_take; unfold offset; lia).
  eexists. split; [reflexivity|]. cbn [um_value um_err um_console]. fold offset.
  split; [reflexivity|]. split; [reflexivity|]. split; [|split].
  - apply take_app_length'. symmetry. exact Hoff.
  - rewrite drop_app_length' by (symmetry; exact Hoff). apply Hval. reflexivity.
  - intros ->. rewrite take_replicate, bigEndian_zeros. apply Hval. reflexivity.
Qed.

(** The value [0x2a], given by two digits, on a receiver of zeros. *)
Lemma UnmarshalText_value_witness :
  exists r,
    UnmarshalText (replicate 32 x00) [x30; x78; x32; x61] = Done r /\
    um_err r = None /\ bigEndian (um_value r) = 42%N.
Proof.
  destruct (UnmarshalText_value (replicate 32 x00) [x30; x78; x32; x61])
    as (r & Hr & Herr & _ & _ & _ & Hzero);
    [reflexivity | vm_compute; lia | exists 1%nat; reflexivity
     | repeat constructor; eexists; reflexivity |].
  exists r. split; [exact Hr|]. split; [exact Herr|].
  rewrite (Hzero eq_refl). reflexivity.
Defined.

(** A text of three digits is refused, and so is one without digits
    after a second prefix. *)
Lemma UnmarshalText_accepts_witness :
  exists r,
    UnmarshalText (replicate 32 x00) [x30; x78; x31; x32; x33] = Done r /\
    um_err r = Some (errInvalidHex [x31; x32; x33]).
Proof.
  destruct (UnmarshalText_accepts (replicate 32 x00) [x30; x78; x31; x32; x33])
    as (r & Hr & _ & _); [reflexivity|].
  exists r. split; [exact Hr|].
  vm_compute in Hr. injection Hr as <-. reflexivity.
Defined.

(** The value [1], marshalled and read back into a receiver of zeros. *)
Lemma UnmarshalText_MarshalText_witness :
  UnmarshalText (replicate 32 x00) (MarshalText (replicate 31 x00 ++ [x01]))
  = Done {| um_value := replicate 31 x00 ++ [x01]; um_console := []; um_err := None |}.
Proof.
  apply (UnmarshalText_MarshalText (replicate 31 x00 ++ [x01]) (replicate 32 x00));
    reflexivity.
Defined.

End storage_props.
